(** * CKG importer: the statistics ledger and the import orchestration

    A shallow embedding of [KnowledgeGrapher/graph/importer.py] and of the
    configuration constants of [graphdb_builder/builder/builder_config.py].

    The importer is effectful Python: it reads and writes the file system,
    keeps a pandas [HDFStore] on disk, calls three external handlers and
    fans projects out over a joblib pool.  The embedding threads an explicit
    world (file-system tree and log of handler invocations) through a small
    state-and-exception monad; an exception keeps the world reached so far,
    as a Python exception does. *)

From Stdlib Require Import ZArith Ascii String Lia.
From stdpp Require Import gmap strings list fin_maps.

Set Warnings "-register-all".
Local Open Scope string_scope.
Local Open Scope list_scope.
Local Open Scope Z_scope.

(** ** Python strings *)

Module py.

(** [s.replace(old, new)] for a non-empty [old]: scan from the left, and at
    every position where [old] starts emit [new] and skip [old]. [skip]
    counts the characters of a match still to be dropped. *)
Fixpoint replace_from (old new : string) (skip : nat) (s : string) : string :=
  match s with
  | EmptyString => EmptyString
  | String c s' =>
      match skip with
      | S k => replace_from old new k s'
      | O =>
          if String.prefix old s
          then new +:+ replace_from old new (Nat.pred (String.length old)) s'
          else String c (replace_from old new O s')
      end
  end.

(** With an empty [old] Python puts [new] before every character and at the
    end. *)
Fixpoint intersperse_all (new s : string) : string :=
  match s with
  | EmptyString => new
  | String c s' => new +:+ String c (intersperse_all new s')
  end.

Definition replace (s old new : string) : string :=
  match old with
  | EmptyString => intersperse_all new s
  | _ => replace_from old new O s
  end.

(** Iterating over a [str] yields its characters as one-character strings. *)
Fixpoint iter_str (s : string) : list string :=
  match s with
  | EmptyString => []
  | String c s' => String c EmptyString :: iter_str s'
  end.

Fixpoint endswith_slash (s : string) : bool :=
  match s with
  | EmptyString => false
  | String c EmptyString => Ascii.eqb c "/"
  | String _ s' => endswith_slash s'
  end.

End py.

(** ** [os.path] *)

Module os_path.

(** [posixpath.join] on two arguments. *)
Definition join (a b : string) : string :=
  if String.prefix "/" b then b
  else match a with
       | EmptyString => b
       | _ => if py.endswith_slash a then a +:+ b else a +:+ "/" +:+ b
       end.

End os_path.

(** ** Cells, records and frames *)

(** A value held in one field of a statistic record. *)
Inductive Cell := CStr (s : string) | CInt (z : Z) | CNone.

(** A pandas [DataFrame] as the importer uses it: named columns and rows of
    cells. The row index is not modelled. *)
Record Frame := mkFrame { columns : list string; rows : list (list Cell) }.

(** ** Configuration: [builder_config.py] *)

Module config.

Definition dataDirectory : string := "../../../data".
Definition importDirectory : string := dataDirectory +:+ "/imports".
Definition archiveDirectory : string := dataDirectory +:+ "/archive".
Definition statsDirectory : string := importDirectory +:+ "/stats".
Definition experimentsDirectory : string := importDirectory +:+ "/experiments".
Definition databasesDirectory : string := importDirectory +:+ "/databases".
Definition ontologiesDirectory : string := importDirectory +:+ "/ontologies".

Definition statsFile : string := "stats.hdf".
Definition statsCols : list string :=
  ["date"; "time"; "dataset"; "filename"; "file_size"; "Imported_number";
   "Import_type"; "name"].

End config.

(** ** [getStatsName]

    [config.version] is not among the constants of [builder_config.py]; the
    release version is a parameter. [str(version)] is the identity on a
    version that is already a string. *)
Definition getStatsName (version : string) : string :=
  let statsName := "stats_" +:+ py.replace version "." "_" in
  statsName.

Definition dot_to_underscore (c : ascii) : ascii :=
  if Ascii.eqb c "." then "_"%char else c.

(** ** Exceptions and the effect monad *)

(** The Python exception classes the importer can meet. [HandlerError] stands
    for whatever an external handler raises. *)
Inductive Exn :=
| FileExistsError
| FileNotFoundError
| NotADirectoryError
| IsADirectoryError
| HDF5ExtError
| ValueError
| AssertionError
| AttributeError
| HandlerError (msg : string).

Inductive Res (A : Type) : Type :=
| Ok (a : A)
| Raise (e : Exn).
Arguments Ok {A} a.
Arguments Raise {A} e.

Definition res_bind {A B : Type} (r : Res A) (k : A -> Res B) : Res B :=
  match r with
  | Ok a => k a
  | Raise e => Raise e
  end.

(** ** The file system

    A tree of directories and regular files. A regular file is either an HDF5
    store, seen as its tables by key, or anything else ([Raw]). Paths are
    split at ["/"]; empty components are dropped, and ["."] and [".."] are
    ordinary names (the configured paths are never compared after
    normalisation by the importer). *)

Inductive Content :=
| HDF5 (tables : gmap string Frame)
| Raw.

Inductive Node :=
| File (c : Content)
| Dir (entries : gmap string Node).

Module fs.

Definition flush (cur : list ascii) : list string :=
  match cur with
  | [] => []
  | _ => [string_of_list_ascii cur]
  end.

Fixpoint split_from (cur : list ascii) (s : string) : list string :=
  match s with
  | EmptyString => flush cur
  | String c s' =>
      if Ascii.eqb c "/" then flush cur ++ split_from [] s'
      else split_from (cur ++ [c]) s'
  end.

Definition split_path (path : string) : list string := split_from [] path.

Fixpoint resolve (p : list string) (n : Node) : option Node :=
  match p with
  | [] => Some n
  | c :: p' =>
      match n with
      | File _ => None
      | Dir es =>
          match es !! c with
          | Some child => resolve p' child
          | None => None
          end
      end
  end.

(** The chain of new, empty directories [c1/c2/.../ck]. *)
Fixpoint fresh_dirs (p : list string) : Node :=
  match p with
  | [] => Dir ∅
  | c :: p' => Dir {[ c := fresh_dirs p' ]}
  end.

(** [os.makedirs] on the tree: creates the leaf and every missing
    intermediate directory; the leaf must not exist, and no component on the
    way may be a regular file. *)
Fixpoint makedirs (p : list string) (n : Node) : Res Node :=
  match p with
  | [] => Raise FileExistsError
  | c :: p' =>
      match n with
      | File _ => Raise NotADirectoryError
      | Dir es =>
          match es !! c with
          | None => Ok (Dir (<[c := fresh_dirs p']> es))
          | Some child =>
              res_bind (makedirs p' child) (fun child' =>
              Ok (Dir (<[c := child']> es)))
          end
      end
  end.

(** Opening a store in append mode (the default of [pd.HDFStore]): an
    existing store is opened, a missing file is created empty in an existing
    directory, anything else is an error. *)
Fixpoint open_store (p : list string) (n : Node) : Res Node :=
  match p with
  | [] =>
      match n with
      | File (HDF5 _) => Ok n
      | File Raw => Raise HDF5ExtError
      | Dir _ => Raise IsADirectoryError
      end
  | c :: p' =>
      match n with
      | File _ => Raise NotADirectoryError
      | Dir es =>
          match es !! c with
          | Some child =>
              res_bind (open_store p' child) (fun child' =>
              Ok (Dir (<[c := child']> es)))
          | None =>
              match p' with
              | [] => Ok (Dir (<[c := File (HDF5 ∅)]> es))
              | _ => Raise FileNotFoundError
              end
          end
      end
  end.

(** Rewriting the tables of the store at [p]. *)
Fixpoint update_store (p : list string)
    (f : gmap string Frame -> Res (gmap string Frame)) (n : Node) : Res Node :=
  match p with
  | [] =>
      match n with
      | File (HDF5 t) => res_bind (f t) (fun t' => Ok (File (HDF5 t')))
      | File Raw => Raise HDF5ExtError
      | Dir _ => Raise IsADirectoryError
      end
  | c :: p' =>
      match n with
      | File _ => Raise NotADirectoryError
      | Dir es =>
          match es !! c with
          | Some child =>
              res_bind (update_store p' f child) (fun child' =>
              Ok (Dir (<[c := child']> es)))
          | None => Raise FileNotFoundError
          end
      end
  end.

End fs.

(** ** pandas: frames and the tables of an [HDFStore] *)

Module pd.

(** [DataFrame(columns=cols)]. *)
Definition DataFrame (cols : list string) : Frame := mkFrame cols [].

(** [df.empty]: some axis has length zero. *)
Definition empty (df : Frame) : bool :=
  (length (columns df) =? 0)%nat || (length (rows df) =? 0)%nat.

Definition pad (k : nat) (record : list Cell) : list Cell :=
  record ++ replicate (k - length record) CNone.

(** [DataFrame.from_records(data, columns=cols)] on a list of tuples. No
    record gives the empty frame over [cols]. Otherwise the records are laid
    out in an array as wide as the longest of them, shorter ones filled up
    with [None]; that width must be the number of columns passed. *)
Definition from_records (data : list (list Cell)) (cols : list string)
  : Res Frame :=
  match data with
  | [] => Ok (mkFrame cols [])
  | _ =>
      let k := foldr Nat.max 0%nat (map length data) in
      if (k =? length cols)%nat then Ok (mkFrame cols (map (pad k) data))
      else Raise AssertionError
  end.

(** [hdf.put(key, value, format='table', ...)]: a put replaces. The node
    under [key] is removed first; the value is then written as a table,
    except that pandas stores no table node for a frame of length zero (it
    would have no column types). *)
Definition put (key : string) (value : Frame) (tables : gmap string Frame)
  : Res (gmap string Frame) :=
  let tables := delete key tables in
  if empty value then Ok tables else Ok (<[key := value]> tables).

(** [hdf.append(key, value, ...)]: a frame of length zero is dropped before
    anything is looked at; a first frame creates the table; a later frame
    must have the table's columns and adds its rows after those stored.
    pandas also takes a frame whose columns are the table's in another order
    and reorders it; the importer builds every frame over [config.statsCols],
    and the model raises in that case. Column types and the reserved string
    width ([min_itemsize]) are not modelled. *)
Definition append (key : string) (value : Frame) (tables : gmap string Frame)
  : Res (gmap string Frame) :=
  if empty value then Ok tables
  else match tables !! key with
       | None => Ok (<[key := value]> tables)
       | Some t =>
           if decide (columns t = columns value)
           then Ok (<[key := mkFrame (columns t) (rows t ++ rows value)]> tables)
           else Raise ValueError
       end.

End pd.

(** ** The world and the monad *)

(** What the external handlers are seen to do: being invoked. *)
Inductive Event :=
| OntologiesHandler (directory : string) (ontologies : option (list string))
| DatabasesHandler (directory : string) (databases : option (list string))
    (n_jobs : Z)
| ExperimentsHandler (project dataset : string)
| ElapsedPrinted.

Record World := mkWorld { root : Node; events : list Event }.

Definition M (A : Type) : Type := World -> World * Res A.

Definition ret {A : Type} (a : A) : M A := fun w => (w, Ok a).

Definition raise {A : Type} (e : Exn) : M A := fun w => (w, Raise e).

Definition bind {A B : Type} (m : M A) (k : A -> M B) : M B :=
  fun w =>
    match m w with
    | (w', Ok a) => k a w'
    | (w', Raise e) => (w', Raise e)
    end.

Notation "x <- m ;; k" := (bind m (fun x => k))
  (at level 20, m at level 99, k at level 200, only parsing).
Notation "m ;; k" := (bind m (fun _ => k))
  (at level 100, k at level 200, right associativity, only parsing).

Definition lift {A : Type} (r : Res A) : M A := fun w => (w, r).

(** A step on the file-system tree that either fails, leaving the tree as
    it is, or replaces it. *)
Definition on_root (f : Node -> Res Node) : M unit :=
  fun w =>
    match f (root w) with
    | Ok n => (mkWorld n (events w), Ok tt)
    | Raise e => (w, Raise e)
    end.

Definition log (ev : Event) : M unit :=
  fun w => (mkWorld (root w) (events w ++ [ev]), Ok tt).

(** ** [os] *)

Module os.

(** [os.path.exists]; the empty path names nothing. *)
Definition path_exists (path : string) : M bool :=
  fun w =>
    (w, Ok (match path with
            | EmptyString => false
            | _ => bool_decide (is_Some (fs.resolve (fs.split_path path) (root w)))
            end)).

Definition path_isfile (path : string) : M bool :=
  fun w =>
    (w, Ok (match path with
            | EmptyString => false
            | _ => match fs.resolve (fs.split_path path) (root w) with
                   | Some (File _) => true
                   | _ => false
                   end
            end)).

Definition makedirs (path : string) : M unit :=
  match path with
  | EmptyString => raise FileNotFoundError
  | _ => on_root (fs.makedirs (fs.split_path path))
  end.

End os.

(** ** [pd.HDFStore] handles *)

(** An open store is known by the path it was opened at. *)
Record HDFStore := mkHDFStore { store_path : string }.

Module hdf.

Definition open (path : string) : M HDFStore :=
  match path with
  | EmptyString => raise FileNotFoundError
  | _ => on_root (fs.open_store (fs.split_path path)) ;; ret (mkHDFStore path)
  end.

Definition put (h : HDFStore) (key : string) (value : Frame) : M unit :=
  on_root (fs.update_store (fs.split_path (store_path h)) (pd.put key value)).

Definition append (h : HDFStore) (key : string) (value : Frame) : M unit :=
  on_root (fs.update_store (fs.split_path (store_path h)) (pd.append key value)).

Definition close (h : HDFStore) : M unit := ret tt.

End hdf.

(** ** What the importer takes from outside *)

(** Modelled from the spec: the handler modules, their configurations
    ([oconfig], [dbconfig], [econfig]) and [utils] are not in the sources,
    and [config.version] is not among the constants of [builder_config.py].
    A handler is an external collaborator known by its answer: the sequence
    of statistic records it returns (ontologies, databases), nothing
    (experiments), or the exception it raises. The files a handler writes
    lie in its own directory and are left out of the tree.
    [utils.listDirectoryFolders] gives every subdirectory found under a
    directory; the experiments source tree is an input the import does not
    write to, so the listing is a function of the path. [cpu_count] is the
    number of processors joblib counts for a negative [n_jobs]. *)
Record Env := mkEnv {
  version : string;
  ontologiesImportDir : string;
  databasesImportDir : string;
  experimentsImportDirectory : string;
  experimentsDir : string;
  listDirectoryFolders : string -> list string;
  oh_generateGraphFiles : string -> option (list string) -> Res (list (list Cell));
  dh_generateGraphFiles :
    string -> option (list string) -> Z -> Res (list (list Cell));
  eh_generateDatasetImports : string -> string -> Res unit;
  cpu_count : Z
}.

(** The [projects] argument of [experimentsImport] as Python sees it: [None],
    a list of names, or (as [fullImport] passes it) a string, which iterates
    as its characters. *)
Inductive Projects :=
| PNone
| PList (names : list string)
| PStr (s : string).

Definition iterate (projects : Projects) : list string :=
  match projects with
  | PNone => []
  | PList names => names
  | PStr s => py.iter_str s
  end.

(** One effect of a worker running [experimentImport]. *)
Inductive Step :=
| CheckDirectory (directory : string)
| GenerateDatasetImports (project dataset : string).

Section Importer.

Context (E : Env).

(** Modelled from the spec: [utils.checkDirectory] is not in the sources; it
    creates the directory and its missing parents if it does not exist and
    does nothing if it exists. [setupStats] spells the same two lines out for
    the stats directory. *)
Definition checkDirectory (directory : string) : M unit :=
  present <- os.path_exists directory ;;
  if negb present then os.makedirs directory else ret tt.

Definition call_oh (directory : string) (ontologies : option (list string))
  : M (list (list Cell)) :=
  log (OntologiesHandler directory ontologies) ;;
  lift (oh_generateGraphFiles E directory ontologies).

Definition call_dh (directory : string) (databases : option (list string))
    (n_jobs : Z) : M (list (list Cell)) :=
  log (DatabasesHandler directory databases n_jobs) ;;
  lift (dh_generateGraphFiles E directory databases n_jobs).

Definition call_eh (project dataset : string) : M unit :=
  log (ExperimentsHandler project dataset) ;;
  lift (eh_generateDatasetImports E project dataset).

Definition print_elapsed : M unit := log ElapsedPrinted.

Definition generateStatsDataFrame (stats : list (list Cell)) : Res Frame :=
  let statsDf := pd.from_records stats config.statsCols in
  statsDf.

Definition createEmptyStats (statsCols : list string) (statsFile : string)
    (statsName : string) : M unit :=
  let statsDf := pd.DataFrame statsCols in
  hdf <- hdf.open statsFile ;;
  hdf.put hdf statsName statsDf ;;
  hdf.close hdf.

Definition setupStats : M unit :=
  let statsDirectory := config.statsDirectory in
  let statsFile := os_path.join statsDirectory config.statsFile in
  let statsCols := config.statsCols in
  let statsName := getStatsName (version E) in
  dir_exists <- os.path_exists statsDirectory ;;
  is_file <- os.path_isfile statsFile ;;
  if negb dir_exists || negb is_file then
    (dir_exists' <- os.path_exists statsDirectory ;;
     if negb dir_exists' then os.makedirs statsDirectory else ret tt) ;;
    createEmptyStats statsCols statsFile statsName
  else ret tt.

Definition loadStats (statsFile : string) : M (option HDFStore) :=
  is_file <- os.path_isfile statsFile ;;
  if is_file then (hdf <- hdf.open statsFile ;; ret (Some hdf))
  else ret None.

Definition writeStats (statsDf : Frame) (statsName : option string) : M unit :=
  let statsDirectory := config.statsDirectory in
  let statsFile := os_path.join statsDirectory config.statsFile in
  let statsName :=
    match statsName with
    | None => getStatsName (version E)
    | Some name => name
    end in
  hdf <- loadStats statsFile ;;
  match hdf with
  | None => raise AttributeError
  | Some hdf => hdf.append hdf statsName statsDf ;; hdf.close hdf
  end.

Definition ontologiesImport (importDirectory : string)
    (ontologies : option (list string)) : M unit :=
  let ontologiesImportDirectory :=
    os_path.join importDirectory (ontologiesImportDir E) in
  checkDirectory ontologiesImportDirectory ;;
  stats <- call_oh ontologiesImportDirectory ontologies ;;
  statsDf <- lift (generateStatsDataFrame stats) ;;
  writeStats statsDf None.

Definition databasesImport (importDirectory : string)
    (databases : option (list string)) (n_jobs : Z) : M unit :=
  let databasesImportDirectory :=
    os_path.join importDirectory (databasesImportDir E) in
  checkDirectory databasesImportDirectory ;;
  stats <- call_dh databasesImportDirectory databases n_jobs ;;
  statsDf <- lift (generateStatsDataFrame stats) ;;
  writeStats statsDf None.

(** [experimentImport] runs inside a pool worker; it is the sequence of
    steps the worker takes. *)
Definition experimentImport (importDirectory experimentsDirectory project : string)
  : list Step :=
  let projectPath := os_path.join importDirectory project in
  CheckDirectory projectPath ::
  let projectDirectory := os_path.join experimentsDirectory project in
  let datasets := listDirectoryFolders E projectDirectory in
  flat_map (fun dataset =>
    let datasetPath := os_path.join projectPath dataset in
    [CheckDirectory datasetPath; GenerateDatasetImports project dataset])
    datasets.

Definition perform (s : Step) : M unit :=
  match s with
  | CheckDirectory directory => checkDirectory directory
  | GenerateDatasetImports project dataset => call_eh project dataset
  end.

(** *** joblib

    [Parallel(n_jobs)(tasks)] dispatches the tasks in order to at most
    [n_jobs] workers and returns when all have finished; [n_jobs = 1] runs
    them one after the other, [n_jobs = 0] is refused and a negative
    [n_jobs] counts down from the number of processors. Which running task
    takes the next step is up to the machine: [sched] lists those choices
    (one per step, the first running task once the list is used up). A step
    that raises ends the call. [pool] takes one unit of fuel per step;
    [Parallel] gives it one for every step of every task. *)

Definition effective_n_jobs (n_jobs : Z) : Res nat :=
  if n_jobs =? 0 then Raise ValueError
  else if n_jobs <? 0 then Ok (Z.to_nat (Z.max (cpu_count E + 1 + n_jobs) 1))
  else Ok (Z.to_nat n_jobs).

Definition unfinished (task : list Step) : bool :=
  match task with
  | [] => false
  | _ => true
  end.

Definition total_steps (tasks : list (list Step)) : nat :=
  length (concat tasks).

Fixpoint pool (fuel workers : nat) (sched : list nat)
    (tasks : list (list Step)) : M unit :=
  match fuel with
  | O => ret tt
  | S fuel' =>
      let pending := filter (fun t => unfinished t = true) tasks in
      let running := take workers pending in
      let choice := hd O sched in
      let i := if (choice <? length running)%nat then choice else O in
      match pending !! i with
      | Some (s :: rest) =>
          perform s ;; pool fuel' workers (tl sched) (<[i := rest]> pending)
      | _ => ret tt
      end
  end.

Definition Parallel (n_jobs : Z) (sched : list nat) (tasks : list (list Step))
  : M unit :=
  workers <- lift (effective_n_jobs n_jobs) ;;
  pool (total_steps tasks) workers sched tasks.

Definition experimentsImport (projects : Projects) (n_jobs : Z)
    (sched : list nat) : M unit :=
  let experimentsImportDirectory := experimentsImportDirectory E in
  checkDirectory experimentsImportDirectory ;;
  let experimentsDirectory := experimentsDir E in
  let projects :=
    match projects with
    | PNone => listDirectoryFolders E experimentsDirectory
    | _ => iterate projects
    end in
  Parallel n_jobs sched
    (map (experimentImport experimentsImportDirectory experimentsDirectory)
       projects).

Definition fullImport (sched : list nat) : M unit :=
  let importDirectory := config.importDirectory in
  checkDirectory importDirectory ;;
  setupStats ;;
  ontologiesImport importDirectory None ;;
  print_elapsed ;;
  databasesImport importDirectory None 4 ;;
  print_elapsed ;;
  experimentsImport (PStr importDirectory) 4 sched ;;
  print_elapsed.

End Importer.

(** ** Observations used in the statements *)

(** No component of [p], down to its end, is a regular file: the directory
    at [p] is there or can be made. *)
Fixpoint no_file_on (p : list string) (n : Node) : bool :=
  match n with
  | File _ => false
  | Dir es =>
      match p with
      | [] => true
      | c :: p' =>
          match es !! c with
          | None => true
          | Some child => no_file_on p' child
          end
      end
  end.

Definition provisionable (directory : string) (w : World) : Prop :=
  directory <> "" /\ no_file_on (fs.split_path directory) (root w) = true.

(** Two trees that hold the same regular files at the same paths. *)
Definition same_files (n n' : Node) : Prop :=
  forall q c, fs.resolve q n' = Some (File c) <-> fs.resolve q n = Some (File c).

(** Every directory of [n] is a directory of [n']. *)
Definition dirs_kept (n n' : Node) : Prop :=
  forall q es, fs.resolve q n = Some (Dir es) ->
               exists es', fs.resolve q n' = Some (Dir es').

Definition is_dir (directory : string) (w : World) : Prop :=
  exists es, fs.resolve (fs.split_path directory) (root w) = Some (Dir es).

(** The path of the ledger file, as [setupStats] and [writeStats] build it. *)
Definition ledger_path : string :=
  os_path.join config.statsDirectory config.statsFile.

Definition file_at (path : string) (w : World) : Prop :=
  exists c, fs.resolve (fs.split_path path) (root w) = Some (File c).

(** The tables of the store at a path, when a store is there. *)
Definition store_at (path : string) (w : World) : option (gmap string Frame) :=
  match fs.resolve (fs.split_path path) (root w) with
  | Some (File (HDF5 t)) => Some t
  | _ => None
  end.

Definition ledger_is_file (w : World) : Prop := file_at ledger_path w.

(** The tables of the ledger, when the ledger file is there and is a store. *)
Definition ledger (w : World) : option (gmap string Frame) :=
  store_at ledger_path w.

(** The key [writeStats] stores under. *)
Definition stats_key (E : Env) (statsName : option string) : string :=
  match statsName with
  | None => getStatsName (version E)
  | Some name => name
  end.


Definition row_count (w : World) : nat :=
  match ledger w with
  | Some tables => map_fold (fun _ t n => (length (rows t) + n)%nat) O tables
  | None => O
  end.








(** The handler invocation a worker step is seen to make. *)
Definition step_events (s : Step) : list Event :=
  match s with
  | CheckDirectory _ => []
  | GenerateDatasetImports project dataset => [ExperimentsHandler project dataset]
  end.

(** A step that will not raise: the directory can be provisioned, the
    handler takes the pair. *)
Definition ready (E : Env) (w : World) (s : Step) : Prop :=
  match s with
  | CheckDirectory directory => provisionable directory w
  | GenerateDatasetImports project dataset =>
      eh_generateDatasetImports E project dataset = Ok tt
  end.

Definition pair_event (pair : string * string) : Event :=
  ExperimentsHandler (fst pair) (snd pair).

(** Every (project, dataset) pair of the experiments source tree. *)
Definition source_pairs (E : Env) : list (string * string) :=
  flat_map (fun project =>
    map (fun dataset => (project, dataset))
      (listDirectoryFolders E (os_path.join (experimentsDir E) project)))
    (listDirectoryFolders E (experimentsDir E)).

(** The (project, dataset) pairs of the named projects. *)
Definition project_pairs (E : Env) (projects : list string)
  : list (string * string) :=
  flat_map (fun project =>
    map (fun dataset => (project, dataset))
      (listDirectoryFolders E (os_path.join (experimentsDir E) project)))
    projects.

(** The projects [experimentsImport] goes through: the subdirectories of the
    experiments source root when [projects] is [None], what [projects]
    iterates as otherwise. *)
Definition resolved_projects (E : Env) (projects : Projects) : list string :=
  match projects with
  | PNone => listDirectoryFolders E (experimentsDir E)
  | _ => iterate projects
  end.

(** Two trees that hold the same regular files at the same paths, the path
    [p] left aside. *)
Definition same_files_but (p : list string) (n n' : Node) : Prop :=
  forall q c, q <> p ->
    (fs.resolve q n' = Some (File c) <-> fs.resolve q n = Some (File c)).

(** An invocation of the experiments handler. *)
Definition is_experiments_event (ev : Event) : Prop :=
  match ev with
  | ExperimentsHandler _ _ => True
  | _ => False
  end.

(** [fullImport] up to the call of [experimentsImport]. *)
Definition before_experiments (E : Env) : M unit :=
  let importDirectory := config.importDirectory in
  checkDirectory importDirectory ;;
  setupStats E ;;
  ontologiesImport E importDirectory None ;;
  print_elapsed ;;
  databasesImport E importDirectory None 4 ;;
  print_elapsed.


(** ** A small installation, for examples

    Release "1.0"; an experiments source tree with projects P1 and P2, each
    with the one dataset d1; handlers that return one and two records. *)
Module example.

Definition record (name : string) : list Cell :=
  [CStr "2019-05-14"; CStr "10:31:07"; CStr name; CStr (name +:+ ".tsv");
   CInt 2048; CInt 17; CStr "entity"; CStr "Disease"].

Definition folders (directory : string) : list string :=
  if String.eqb directory "exp" then ["P1"; "P2"]
  else if String.eqb directory "exp/." then ["P1"; "P2"]
  else if String.eqb directory "exp/P1" then ["d1"]
  else if String.eqb directory "exp/P2" then ["d1"]
  else [].

Definition E0 : Env :=
  {| version := "1.0";
     ontologiesImportDir := "ontologies";
     databasesImportDir := "databases";
     experimentsImportDirectory := "../../../data/imports/experiments";
     experimentsDir := "exp";
     listDirectoryFolders := folders;
     oh_generateGraphFiles := fun _ _ => Ok [record "DO"];
     dh_generateGraphFiles := fun _ _ _ => Ok [record "STRING"; record "HPA"];
     eh_generateDatasetImports := fun _ _ => Ok tt;
     cpu_count := 8 |}.

(** The same installation with a databases handler that fails and an
    experiments handler that fails on project P2. *)
Definition E1 : Env :=
  {| version := "1.0";
     ontologiesImportDir := "ontologies";
     databasesImportDir := "databases";
     experimentsImportDirectory := "../../../data/imports/experiments";
     experimentsDir := "exp";
     listDirectoryFolders := folders;
     oh_generateGraphFiles := fun _ _ => Ok [record "DO"];
     dh_generateGraphFiles := fun _ _ _ => Raise (HandlerError "download");
     eh_generateDatasetImports := fun project _ =>
       if String.eqb project "P2" then Raise (HandlerError "parse")
       else Ok tt;
     cpu_count := 8 |}.

(** The same installation with an ontologies handler that fails. *)
Definition E2 : Env :=
  {| version := "1.0";
     ontologiesImportDir := "ontologies";
     databasesImportDir := "databases";
     experimentsImportDirectory := "../../../data/imports/experiments";
     experimentsDir := "exp";
     listDirectoryFolders := folders;
     oh_generateGraphFiles := fun _ _ => Raise (HandlerError "obo");
     dh_generateGraphFiles := fun _ _ _ => Ok [record "STRING"; record "HPA"];
     eh_generateDatasetImports := fun _ _ => Ok tt;
     cpu_count := 8 |}.

(** Nothing on disk. *)
Definition w_empty : World := mkWorld (Dir ∅) [].

(** After the first two lines of [fullImport]: the import root and an
    initialised ledger. *)
Definition w_ready : World :=
  fst ((checkDirectory config.importDirectory ;; setupStats E0) w_empty).


(** Where [fullImport] stands when it calls [experimentsImport]. *)
Definition w_two_stages : World := fst (before_experiments E0 w_empty).

End example.

(** * Theorems *)

(** ** The file-system tree *)

Section Tree.

Lemma resolve_app (p q : list string) (n : Node) :
  fs.resolve (p ++ q) n = fs.resolve p n ≫= fs.resolve q.
Proof.
  revert n; induction p as [|c p IH]; intros n; [reflexivity|].
  cbn. destruct n as [?|es]; [reflexivity|].
  destruct (es !! c); [apply IH | reflexivity].
Qed.

Lemma fresh_dirs_no_file (p q : list string) (c : Content) :
  fs.resolve q (fs.fresh_dirs p) <> Some (File c).
Proof.
  revert p; induction q as [|d q IH]; intros p.
  - destruct p; discriminate.
  - destruct p as [|d' p]; cbn.
    + rewrite lookup_empty. discriminate.
    + destruct (decide (d' = d)) as [->|Hne].
      * rewrite lookup_singleton_eq. apply IH.
      * rewrite lookup_singleton_ne by done. discriminate.
Qed.

Lemma fresh_dirs_leaf (p : list string) :
  fs.resolve p (fs.fresh_dirs p) = Some (Dir ∅).
Proof.
  induction p as [|c p IH]; [reflexivity|].
  cbn. now rewrite lookup_singleton_eq.
Qed.

(** A successful [makedirs] neither adds nor removes a regular file. *)
Lemma makedirs_files (p : list string) (n n' : Node) :
  fs.makedirs p n = Ok n' -> same_files n n'.
Proof.
  unfold same_files. revert n n'; induction p as [|d p IH]; intros n n' H; [discriminate|].
  cbn in H. destruct n as [?|es]; [discriminate|].
  destruct (es !! d) as [child|] eqn:Hd.
  - destruct (fs.makedirs p child) as [child'|] eqn:Hm; [|discriminate].
    cbn in H. injection H as <-. intros [|e q] c; [easy|].
    cbn. destruct (decide (d = e)) as [<-|Hne].
    + rewrite lookup_insert_eq, Hd. now apply IH.
    + now rewrite lookup_insert_ne.
  - injection H as <-. intros [|e q] c; [easy|].
    cbn. destruct (decide (d = e)) as [<-|Hne].
    + rewrite lookup_insert_eq, Hd. split; [|discriminate].
      intros Hf. now apply fresh_dirs_no_file in Hf.
    + now rewrite lookup_insert_ne.
Qed.

(** A successful [makedirs] keeps every directory. *)
Lemma makedirs_dirs (p : list string) (n n' : Node) :
  fs.makedirs p n = Ok n' -> dirs_kept n n'.
Proof.
  unfold dirs_kept. revert n n'; induction p as [|d p IH]; intros n n' H; [discriminate|].
  cbn in H. destruct n as [?|es0]; [discriminate|].
  destruct (es0 !! d) as [child|] eqn:Hd.
  - destruct (fs.makedirs p child) as [child'|] eqn:Hm; [|discriminate].
    cbn in H. injection H as <-. intros [|e q] es Hq; [cbn; eauto|].
    cbn in *. destruct (decide (d = e)) as [<-|Hne].
    + rewrite lookup_insert_eq. rewrite Hd in Hq. eapply IH; eauto.
    + rewrite lookup_insert_ne by done. eauto.
  - injection H as <-. intros [|e q] es Hq; [cbn; eauto|].
    cbn in *. destruct (decide (d = e)) as [<-|Hne].
    + now rewrite Hd in Hq.
    + rewrite lookup_insert_ne by done. eauto.
Qed.

(** A successful [makedirs] leaves a new, empty directory at its path. *)
Lemma makedirs_leaf (p : list string) (n n' : Node) :
  fs.makedirs p n = Ok n' -> fs.resolve p n' = Some (Dir ∅).
Proof.
  revert n n'; induction p as [|d p IH]; intros n n' H; [discriminate|].
  cbn in H. destruct n as [?|es]; [discriminate|].
  destruct (es !! d) as [child|] eqn:Hd.
  - destruct (fs.makedirs p child) as [child'|] eqn:Hm; [|discriminate].
    cbn in H. injection H as <-. cbn. rewrite lookup_insert_eq. eauto.
  - injection H as <-. cbn. rewrite lookup_insert_eq. apply fresh_dirs_leaf.
Qed.

Lemma makedirs_succeeds (p : list string) (n : Node) :
  fs.resolve p n = None -> no_file_on p n = true ->
  exists n', fs.makedirs p n = Ok n'.
Proof.
  revert n; induction p as [|d p IH]; intros n Hr Hc; [discriminate|].
  cbn in *. destruct n as [?|es]; [discriminate|].
  destruct (es !! d) as [child|]; [|eauto].
  destruct (IH child Hr Hc) as [child' ->]. cbn. eauto.
Qed.

Lemma no_file_on_dir (p : list string) (n m : Node) :
  fs.resolve p n = Some m -> no_file_on p n = true -> exists es, m = Dir es.
Proof.
  revert n; induction p as [|d p IH]; intros n Hr Hc.
  - cbn in Hr. injection Hr as <-. destruct n; [discriminate|eauto].
  - destruct n as [?|es]; [discriminate|]. cbn in *.
    destruct (es !! d) as [child|]; [eauto|discriminate].
Qed.

Lemma no_file_on_empty (p : list string) (n : Node) :
  (forall q c, fs.resolve q n <> Some (File c)) -> no_file_on p n = true.
Proof.
  revert n; induction p as [|d p IH]; intros n Hn.
  - destruct n as [c|?]; [now destruct (Hn [] c)|reflexivity].
  - destruct n as [c|es]; [now destruct (Hn [] c)|]. cbn.
    destruct (es !! d) as [child|] eqn:Hd; [|reflexivity].
    apply IH. intros q c Hq. apply (Hn (d :: q) c). cbn. now rewrite Hd.
Qed.

Lemma same_files_refl (n : Node) : same_files n n.
Proof. now intros q c. Qed.

Lemma same_files_trans (n1 n2 n3 : Node) :
  same_files n1 n2 -> same_files n2 n3 -> same_files n1 n3.
Proof. intros H12 H23 q c. now rewrite (H23 q c). Qed.

Lemma no_file_on_files (p : list string) (n n' : Node) :
  same_files n n' -> no_file_on p n = true -> no_file_on p n' = true.
Proof.
  revert n n'; induction p as [|d p IH]; intros n n' Hf Hc.
  - destruct n' as [c'|?]; [|reflexivity].
    destruct (Hf [] c') as [Hf' _]. specialize (Hf' eq_refl).
    cbn in Hf'. injection Hf' as ->. discriminate.
  - destruct n' as [c'|es'].
    + destruct (Hf [] c') as [Hf' _]. specialize (Hf' eq_refl).
      cbn in Hf'. injection Hf' as ->. discriminate.
    + cbn. destruct (es' !! d) as [child'|] eqn:Hd'; [|reflexivity].
      destruct n as [?|es]; [discriminate|]. cbn in Hc.
      destruct (es !! d) as [child|] eqn:Hd.
      * apply (IH child); [|assumption].
        intros q c. specialize (Hf (d :: q) c). cbn in Hf.
        now rewrite Hd, Hd' in Hf.
      * apply no_file_on_empty. intros q c Hq.
        specialize (Hf (d :: q) c). cbn in Hf. rewrite Hd, Hd' in Hf.
        apply Hf in Hq. discriminate.
Qed.

End Tree.

Section StatsName.

Lemma replace_from_dot (s : string) :
  py.replace_from "." "_" O s =
  string_of_list_ascii (map dot_to_underscore (list_ascii_of_string s)).
Proof.
  induction s as [|c s IH]; [reflexivity|].
  cbn [py.replace_from String.prefix list_ascii_of_string map string_of_list_ascii].
  unfold dot_to_underscore at 1.
  destruct (ascii_dec "." c) as [<-|Hne].
  - cbn. rewrite <- IH. now destruct s.
  - destruct (Ascii.eqb_spec c ".") as [->|_]; [congruence|].
    now rewrite IH.
Qed.

Lemma get_string_of_list (l : list ascii) (i : nat) :
  String.get i (string_of_list_ascii l) = nth_error l i.
Proof.
  revert i; induction l as [|c l IH]; intros [|i]; cbn; auto.
Qed.

Lemma get_list_of_string (s : string) (i : nat) :
  nth_error (list_ascii_of_string s) i = String.get i s.
Proof.
  rewrite <- (string_of_list_ascii_of_string s) at 2.
  now rewrite get_string_of_list.
Qed.

Lemma length_string_of_list (l : list ascii) :
  String.length (string_of_list_ascii l) = List.length l.
Proof. induction l; cbn; auto. Qed.

Lemma length_list_of_string (s : string) :
  List.length (list_ascii_of_string s) = String.length s.
Proof. induction s; cbn; auto. Qed.

(** C2. [getStatsName] is a function of the version string alone: its result
    is the prefix [stats_] followed by a body as long as the version, whose
    character at every index is [_] where the version has [.] and the
    version's character elsewhere; "1.0" gives "stats_1_0" and "2.3.1" gives
    "stats_2_3_1". *)
Theorem getStatsName_spec (version : string) :
  (exists body : string,
      getStatsName version = "stats_" +:+ body /\
      String.length body = String.length version /\
      forall i : nat,
        String.get i body = dot_to_underscore <$> String.get i version) /\
  getStatsName "1.0" = "stats_1_0" /\
  getStatsName "2.3.1" = "stats_2_3_1".
Proof.
  split; [|split; reflexivity].
  exists (py.replace version "." "_"). split; [reflexivity|].
  unfold py.replace. rewrite replace_from_dot. split.
  - now rewrite length_string_of_list, length_map, length_list_of_string.
  - intros i. rewrite get_string_of_list, nth_error_map, get_list_of_string.
    now destruct (String.get i version).
Qed.

(** C10. [getStatsName] is not injective: the distinct versions "1.0" and
    "1_0" both give the key "stats_1_0". *)
Theorem getStatsName_not_injective :
  "1.0" <> "1_0" /\
  getStatsName "1.0" = "stats_1_0" /\
  getStatsName "1_0" = "stats_1_0" /\
  ~ (forall v1 v2 : string, getStatsName v1 = getStatsName v2 -> v1 = v2).
Proof.
  split; [discriminate|]. split; [reflexivity|]. split; [reflexivity|].
  intros Hinj. specialize (Hinj "1.0" "1_0" eq_refl). discriminate.
Qed.

End StatsName.

(** ** Stores in the tree *)

Section Stores.

Lemma open_store_existing (p : list string) (n : Node) (t : gmap string Frame) :
  fs.resolve p n = Some (File (HDF5 t)) -> fs.open_store p n = Ok n.
Proof.
  revert n; induction p as [|d p IH]; intros n H; cbn in *.
  - now injection H as ->.
  - destruct n as [?|es]; [discriminate|].
    destruct (es !! d) as [child|] eqn:Hd; [|discriminate].
    rewrite (IH _ H). cbn. now rewrite insert_id.
Qed.

Lemma open_store_not_store (p : list string) (n m : Node) :
  fs.resolve p n = Some m -> (forall t, m <> File (HDF5 t)) ->
  exists e, fs.open_store p n = Raise e.
Proof.
  revert n; induction p as [|d p IH]; intros n H Hm; cbn in *.
  - injection H as ->. destruct m as [[t|]|es]; eauto. now destruct (Hm t).
  - destruct n as [?|es]; [discriminate|].
    destruct (es !! d) as [child|] eqn:Hd; [|discriminate].
    destruct (IH _ H Hm) as [e ->]. cbn. eauto.
Qed.

(** Opening a missing file either fails and changes nothing, or leaves an
    empty store there. *)
Lemma open_store_missing (p : list string) (n n' : Node) :
  fs.resolve p n = None -> fs.open_store p n = Ok n' ->
  fs.resolve p n' = Some (File (HDF5 ∅)).
Proof.
  revert n n'; induction p as [|d p IH]; intros n n' H Ho; cbn in *;
    [discriminate|].
  destruct n as [?|es]; [discriminate|].
  destruct (es !! d) as [child|] eqn:Hd.
  - destruct (fs.open_store p child) as [child'|] eqn:Hc; [|discriminate].
    cbn in Ho. injection Ho as <-. cbn. rewrite lookup_insert_eq. eauto.
  - destruct p; [|discriminate]. injection Ho as <-. cbn.
    now rewrite lookup_insert_eq.
Qed.

Lemma open_store_in_dir (p : list string) (f : string) (n : Node)
    (es : gmap string Node) :
  fs.resolve p n = Some (Dir es) -> es !! f = None ->
  exists n', fs.open_store (p ++ [f]) n = Ok n'.
Proof.
  revert n; induction p as [|d p IH]; intros n H Hf; cbn in *.
  - injection H as ->. rewrite Hf. eauto.
  - destruct n as [?|es0]; [discriminate|].
    destruct (es0 !! d) as [child|] eqn:Hd; [|discriminate].
    destruct (IH _ H Hf) as [n' ->]. cbn. eauto.
Qed.

Lemma update_store_ok (p : list string) (n : Node)
    (f : gmap string Frame -> Res (gmap string Frame)) (t t' : gmap string Frame) :
  fs.resolve p n = Some (File (HDF5 t)) -> f t = Ok t' ->
  exists n', fs.update_store p f n = Ok n' /\
             fs.resolve p n' = Some (File (HDF5 t')) /\
             (t' = t -> n' = n).
Proof.
  revert n; induction p as [|d p IH]; intros n H Hf; cbn in *.
  - injection H as ->. rewrite Hf. cbn. eexists; split; [reflexivity|].
    split; [reflexivity|]. now intros ->.
  - destruct n as [?|es]; [discriminate|].
    destruct (es !! d) as [child|] eqn:Hd; [|discriminate].
    destruct (IH _ H Hf) as (n' & -> & Hr & Hid). cbn.
    eexists; split; [reflexivity|]. cbn. rewrite lookup_insert_eq.
    split; [assumption|]. intros Ht. rewrite (Hid Ht). now rewrite insert_id.
Qed.

Lemma update_store_raise (p : list string) (n : Node)
    (f : gmap string Frame -> Res (gmap string Frame)) (t : gmap string Frame)
    (e : Exn) :
  fs.resolve p n = Some (File (HDF5 t)) -> f t = Raise e ->
  fs.update_store p f n = Raise e.
Proof.
  revert n; induction p as [|d p IH]; intros n H Hf; cbn in *.
  - injection H as ->. now rewrite Hf.
  - destruct n as [?|es]; [discriminate|].
    destruct (es !! d) as [child|] eqn:Hd; [|discriminate].
    now rewrite (IH _ H Hf).
Qed.

End Stores.

(** ** The operations on a store file

    First at any non-empty path, then at the ledger path of the
    configuration. *)

Section StoreFile.

Context (path : string) (Hpath : path <> "").

Local Abbreviation sp := (fs.split_path path).

Lemma world_eta (w : World) : mkWorld (root w) (events w) = w.
Proof. now destruct w. Qed.

Lemma isfile_at (w : World) :
  os.path_isfile path w =
  (w, Ok match fs.resolve sp (root w) with
         | Some (File _) => true
         | _ => false
         end).
Proof using Hpath. destruct path; [congruence|reflexivity]. Qed.

Lemma exists_at (w : World) :
  os.path_exists path w =
  (w, Ok (bool_decide (is_Some (fs.resolve sp (root w))))).
Proof using Hpath. destruct path; [congruence|reflexivity]. Qed.

Lemma makedirs_at (w : World) :
  os.makedirs path w =
  match fs.makedirs sp (root w) with
  | Ok n => (mkWorld n (events w), Ok tt)
  | Raise e => (w, Raise e)
  end.
Proof using Hpath. destruct path; [congruence|reflexivity]. Qed.

Lemma open_at (w : World) :
  hdf.open path w =
  match fs.open_store sp (root w) with
  | Ok n => (mkWorld n (events w), Ok (mkHDFStore path))
  | Raise e => (w, Raise e)
  end.
Proof using Hpath.
  destruct path as [|c s] eqn:Hp; [congruence|].
  unfold hdf.open, bind, on_root, ret.
  now destruct (fs.open_store _ (root w)).
Qed.

Lemma append_at (w : World) (key : string) (df : Frame) :
  hdf.append (mkHDFStore path) key df w =
  match fs.update_store sp (pd.append key df) (root w) with
  | Ok n => (mkWorld n (events w), Ok tt)
  | Raise e => (w, Raise e)
  end.
Proof. reflexivity. Qed.

Lemma put_at (w : World) (key : string) (df : Frame) :
  hdf.put (mkHDFStore path) key df w =
  match fs.update_store sp (pd.put key df) (root w) with
  | Ok n => (mkWorld n (events w), Ok tt)
  | Raise e => (w, Raise e)
  end.
Proof. reflexivity. Qed.

Lemma store_at_Some (w : World) (t : gmap string Frame) :
  store_at path w = Some t <-> fs.resolve sp (root w) = Some (File (HDF5 t)).
Proof.
  unfold store_at. destruct (fs.resolve sp (root w)) as [[[t'|]|?]|];
    split; intros H; try discriminate; now injection H as ->.
Qed.

Lemma file_at_store (w : World) (t : gmap string Frame) :
  store_at path w = Some t -> file_at path w.
Proof. intros H%store_at_Some. now exists (HDF5 t). Qed.

Lemma store_at_no_file (w : World) : ~ file_at path w -> store_at path w = None.
Proof.
  intros Hnf. destruct (store_at path w) as [t|] eqn:Hl; [|reflexivity].
  destruct Hnf. eapply file_at_store; eauto.
Qed.

Lemma loadStats_store (w : World) (t : gmap string Frame) :
  store_at path w = Some t ->
  loadStats path w = (w, Ok (Some (mkHDFStore path))).
Proof using Hpath.
  intros H%store_at_Some. unfold loadStats, bind.
  rewrite isfile_at, H, open_at, (open_store_existing _ _ _ H).
  unfold ret. now rewrite world_eta.
Qed.

Lemma loadStats_no_store (w : World) :
  store_at path w = None ->
  loadStats path w = (w, Ok None) \/ exists e, loadStats path w = (w, Raise e).
Proof using Hpath.
  intros H. unfold loadStats, bind. rewrite isfile_at.
  unfold store_at in H.
  destruct (fs.resolve sp (root w)) as [[c|es]|] eqn:Hr;
    [|left; reflexivity..].
  right. rewrite open_at.
  destruct c as [t|]; [discriminate|].
  destruct (open_store_not_store sp (root w) (File Raw) Hr) as [e ->];
    [discriminate|eauto].
Qed.

(** [loadStats] never changes the world. *)
Lemma loadStats_world (w : World) : fst (loadStats path w) = w.
Proof using Hpath.
  destruct (store_at path w) as [t|] eqn:Hl.
  - now rewrite (loadStats_store _ _ Hl).
  - destruct (loadStats_no_store _ Hl) as [->|[e ->]]; reflexivity.
Qed.

Lemma empty_DataFrame (cols : list string) : pd.empty (pd.DataFrame cols) = true.
Proof. unfold pd.empty. cbn. apply orb_true_r. Qed.

Lemma put_DataFrame (key : string) (cols : list string) (t : gmap string Frame) :
  pd.put key (pd.DataFrame cols) t = Ok (delete key t).
Proof. unfold pd.put. now rewrite empty_DataFrame. Qed.

Lemma createEmptyStats_run (cols : list string) (name : string) (w : World) :
  createEmptyStats cols path name w =
  match fs.open_store sp (root w) with
  | Raise e => (w, Raise e)
  | Ok n =>
      match fs.update_store sp (pd.put name (pd.DataFrame cols)) n with
      | Ok n' => (mkWorld n' (events w), Ok tt)
      | Raise e => (mkWorld n (events w), Raise e)
      end
  end.
Proof using Hpath.
  unfold createEmptyStats, bind. rewrite open_at.
  destruct (fs.open_store sp (root w)) as [n|e]; [|reflexivity].
  rewrite put_at. cbn [root events].
  now destruct (fs.update_store sp _ n).
Qed.


(** Where nothing is at the path and the store can be opened,
    [createEmptyStats] leaves a store without tables. *)
Lemma createEmptyStats_new (cols : list string) (name : string) (w : World)
    (n : Node) :
  fs.resolve sp (root w) = None -> fs.open_store sp (root w) = Ok n ->
  exists w', createEmptyStats cols path name w = (w', Ok tt) /\
             store_at path w' = Some ∅ /\ events w' = events w.
Proof using Hpath.
  intros Hr Ho. rewrite createEmptyStats_run, Ho.
  pose proof (open_store_missing _ _ _ Hr Ho) as Hn.
  destruct (update_store_ok sp n _ ∅ _ Hn (put_DataFrame name cols ∅))
    as (n' & -> & Hr' & _).
  eexists; split; [reflexivity|]. rewrite delete_empty in Hr'.
  split; [now apply store_at_Some|reflexivity].
Qed.

(** Where no store is at the path, [createEmptyStats] either raises and
    changes nothing or leaves a store without tables. *)
Lemma createEmptyStats_no_store (cols : list string) (name : string) (w : World) :
  store_at path w = None ->
  (exists e, createEmptyStats cols path name w = (w, Raise e)) \/
  (~ file_at path w /\
   exists w', createEmptyStats cols path name w = (w', Ok tt) /\
              store_at path w' = Some ∅ /\ events w' = events w).
Proof using Hpath.
  intros Hl. destruct (fs.resolve sp (root w)) as [m|] eqn:Hr.
  - left. rewrite createEmptyStats_run.
    destruct (open_store_not_store sp (root w) m Hr) as [e ->]; [|eauto].
    intros t ->. apply store_at_Some in Hr. congruence.
  - destruct (fs.open_store sp (root w)) as [n|e] eqn:Ho.
    + right. split; [intros [c Hc]; congruence|].
      eapply createEmptyStats_new; eauto.
    + left. rewrite createEmptyStats_run, Ho. eauto.
Qed.

End StoreFile.

(** ** The operations on the ledger file *)

Section Ledger.

Context (E : Env).

Lemma ledger_path_nonempty : ledger_path <> "".
Proof. vm_compute. discriminate. Qed.

Lemma statsDirectory_nonempty : config.statsDirectory <> "".
Proof. vm_compute. discriminate. Qed.

Lemma ledger_path_split :
  fs.split_path ledger_path =
  (fs.split_path config.statsDirectory ++ [config.statsFile])%list.
Proof. vm_compute. reflexivity. Qed.

(** [ledger] and [ledger_is_file] are [store_at] and [file_at] at the ledger
    path. *)
Lemma ledger_eq (w : World) : ledger w = store_at ledger_path w.
Proof. reflexivity. Qed.

Lemma ledger_is_file_eq (w : World) : ledger_is_file w = file_at ledger_path w.
Proof. reflexivity. Qed.

Lemma writeStats_unfold (df : Frame) (name : option string) :
  writeStats E df name =
  (hdf <- loadStats ledger_path ;;
   match hdf with
   | None => raise AttributeError
   | Some hdf => hdf.append hdf (stats_key E name) df ;; hdf.close hdf
   end).
Proof. reflexivity. Qed.

Lemma writeStats_run (w : World) (t : gmap string Frame) (df : Frame)
    (name : option string) :
  ledger w = Some t ->
  writeStats E df name w =
  match fs.update_store (fs.split_path ledger_path)
          (pd.append (stats_key E name) df) (root w) with
  | Ok n => (mkWorld n (events w), Ok tt)
  | Raise e => (w, Raise e)
  end.
Proof.
  rewrite ledger_eq. intros Hl. rewrite writeStats_unfold. unfold bind at 1.
  rewrite (loadStats_store _ ledger_path_nonempty _ _ Hl). unfold bind.
  rewrite append_at.
  now destruct (fs.update_store _ _ (root w)).
Qed.

(** [writeStats] on a ledger that is a store: what [pd.append] does to its
    tables happens to the file, and nothing else changes. *)
Lemma writeStats_store (w : World) (t : gmap string Frame) (df : Frame)
    (name : option string) :
  ledger w = Some t ->
  match pd.append (stats_key E name) df t with
  | Ok t' =>
      exists w', writeStats E df name w = (w', Ok tt) /\
                 ledger w' = Some t' /\ events w' = events w /\
                 (t' = t -> w' = w)
  | Raise e => writeStats E df name w = (w, Raise e)
  end.
Proof.
  intros Hl. rewrite (writeStats_run _ _ _ _ Hl).
  rewrite ledger_eq in Hl. apply store_at_Some in Hl.
  destruct (pd.append (stats_key E name) df t) as [t'|e] eqn:Ha.
  - destruct (update_store_ok _ (root w) _ t t' Hl Ha) as (n' & -> & Hr & Hid).
    eexists; split; [reflexivity|]. rewrite ledger_eq.
    split; [now apply store_at_Some|].
    split; [reflexivity|]. intros Ht. rewrite (Hid Ht). apply world_eta.
  - now rewrite (update_store_raise _ (root w) _ t e Hl Ha).
Qed.

(** [writeStats] on a ledger that cannot be opened raises and changes
    nothing. *)
Lemma writeStats_no_store (w : World) (df : Frame) (name : option string) :
  ledger w = None -> exists e, writeStats E df name w = (w, Raise e).
Proof.
  rewrite ledger_eq. intros Hl. rewrite writeStats_unfold. unfold bind.
  destruct (loadStats_no_store _ ledger_path_nonempty _ Hl) as [->|[e ->]];
    [|eauto].
  unfold raise. eauto.
Qed.

Lemma setupStats_unfold :
  setupStats E =
  (dir_exists <- os.path_exists config.statsDirectory ;;
   is_file <- os.path_isfile ledger_path ;;
   if negb dir_exists || negb is_file then
     (dir_exists' <- os.path_exists config.statsDirectory ;;
      if negb dir_exists' then os.makedirs config.statsDirectory else ret tt) ;;
     createEmptyStats config.statsCols ledger_path (getStatsName (version E))
   else ret tt).
Proof. reflexivity. Qed.

(** [setupStats] does nothing where the ledger file is a regular file. *)
Lemma setupStats_file (w : World) :
  ledger_is_file w -> setupStats E w = (w, Ok tt).
Proof.
  rewrite ledger_is_file_eq.
  intros [c Hc]. rewrite setupStats_unfold. unfold bind at 1.
  rewrite (exists_at _ statsDirectory_nonempty). unfold bind at 1.
  rewrite (isfile_at _ ledger_path_nonempty), Hc.
  rewrite bool_decide_true; [reflexivity|].
  rewrite ledger_path_split, resolve_app in Hc.
  destruct (fs.resolve (fs.split_path config.statsDirectory) (root w));
    [eauto | discriminate].
Qed.

Lemma setupStats_run_no_file (w : World) :
  ~ file_at ledger_path w ->
  setupStats E w =
  match fs.resolve (fs.split_path config.statsDirectory) (root w) with
  | Some _ =>
      createEmptyStats config.statsCols ledger_path (getStatsName (version E)) w
  | None =>
      match fs.makedirs (fs.split_path config.statsDirectory) (root w) with
      | Ok n =>
          createEmptyStats config.statsCols ledger_path
            (getStatsName (version E)) (mkWorld n (events w))
      | Raise e => (w, Raise e)
      end
  end.
Proof.
  intros Hnf. rewrite setupStats_unfold. unfold bind at 1.
  rewrite (exists_at _ statsDirectory_nonempty). unfold bind at 1.
  rewrite (isfile_at _ ledger_path_nonempty).
  replace (match fs.resolve (fs.split_path ledger_path) (root w) with
           | Some (File _) => true | _ => false end) with false; cycle 1.
  { destruct (fs.resolve (fs.split_path ledger_path) (root w))
      as [[c|?]|] eqn:Hr; try reflexivity.
    destruct Hnf. now exists c. }
  rewrite orb_true_r. unfold bind at 1. unfold bind at 1.
  rewrite (exists_at _ statsDirectory_nonempty).
  destruct (fs.resolve (fs.split_path config.statsDirectory) (root w))
    as [m|] eqn:Hd.
  - rewrite bool_decide_true by eauto. reflexivity.
  - rewrite bool_decide_false by (intros [? ?]; discriminate). cbn [negb].
    rewrite (makedirs_at _ statsDirectory_nonempty).
    now destruct (fs.makedirs (fs.split_path config.statsDirectory) (root w)).
Qed.

(** Where the ledger file is not a regular file, [setupStats] either raises
    and changes nothing, or leaves a store without tables. *)
Lemma setupStats_no_file (w : World) :
  ~ ledger_is_file w ->
  (exists e, setupStats E w = (w, Raise e)) \/
  (exists w', setupStats E w = (w', Ok tt) /\ ledger w' = Some ∅ /\
              events w' = events w).
Proof.
  rewrite ledger_is_file_eq. intros Hnf.
  pose proof (store_at_no_file _ _ Hnf) as Hl.
  rewrite (setupStats_run_no_file _ Hnf).
  destruct (fs.resolve (fs.split_path config.statsDirectory) (root w))
    as [m|] eqn:Hd.
  - destruct (createEmptyStats_no_store _ ledger_path_nonempty config.statsCols
                (getStatsName (version E)) w Hl) as [He|[_ Hw]]; [now left|].
    right. destruct Hw as (w' & Hw & Hlw & Hev). exists w'.
    rewrite ledger_eq. repeat split; assumption.
  - destruct (fs.makedirs (fs.split_path config.statsDirectory) (root w))
      as [n|e] eqn:Hm; [|left; eauto].
    right. pose proof (makedirs_leaf _ _ _ Hm) as Hleaf.
    destruct (open_store_in_dir _ config.statsFile n ∅ Hleaf (lookup_empty _))
      as [n' Ho].
    rewrite <- ledger_path_split in Ho.
    destruct (createEmptyStats_new _ ledger_path_nonempty config.statsCols
                (getStatsName (version E)) (mkWorld n (events w)) n')
      as (w' & Hw & Hlw & Hev).
    + cbn [root]. rewrite ledger_path_split, resolve_app, Hleaf. cbn.
      now rewrite lookup_empty.
    + exact Ho.
    + exists w'. rewrite ledger_eq. repeat split; assumption.
Qed.

End Ledger.

(** ** Provisioning directories *)

Section Provisioning.

Lemma dirs_kept_refl (n : Node) : dirs_kept n n.
Proof. intros q es H. eauto. Qed.

Lemma dirs_kept_trans (n1 n2 n3 : Node) :
  dirs_kept n1 n2 -> dirs_kept n2 n3 -> dirs_kept n1 n3.
Proof. intros H12 H23 q es H. destruct (H12 _ _ H) as [es' H']. eauto. Qed.

Lemma store_at_files (path : string) (w w' : World) :
  same_files (root w) (root w') -> store_at path w' = store_at path w.
Proof.
  intros Hf. unfold store_at.
  destruct (fs.resolve (fs.split_path path) (root w')) as [[c'|?]|] eqn:H';
    destruct (fs.resolve (fs.split_path path) (root w)) as [[c|?]|] eqn:H;
    try reflexivity.
  - apply Hf in H'. rewrite H in H'. now injection H' as ->.
  - apply Hf in H'. congruence.
  - apply Hf in H'. congruence.
  - apply Hf in H. congruence.
  - apply Hf in H. congruence.
Qed.

Lemma provisionable_files (d : string) (w w' : World) :
  same_files (root w) (root w') -> provisionable d w -> provisionable d w'.
Proof.
  intros Hf [Hne Hc]. split; [assumption|]. eapply no_file_on_files; eauto.
Qed.

Lemma is_dir_kept (d : string) (w w' : World) :
  dirs_kept (root w) (root w') -> is_dir d w -> is_dir d w'.
Proof. intros Hk [es H]. exact (Hk _ _ H). Qed.

(** [checkDirectory] on a path with no regular file in the way: the
    directory is there afterwards, no regular file has changed, no directory
    is lost and no handler is called. *)
Lemma checkDirectory_ok (d : string) (w : World) :
  provisionable d w ->
  exists w', checkDirectory d w = (w', Ok tt) /\
             events w' = events w /\
             same_files (root w) (root w') /\
             dirs_kept (root w) (root w') /\
             is_dir d w'.
Proof.
  intros [Hne Hc]. unfold checkDirectory, bind. rewrite (exists_at _ Hne).
  destruct (fs.resolve (fs.split_path d) (root w)) as [m|] eqn:Hr.
  - rewrite bool_decide_true by eauto. cbn [negb].
    exists w. split; [reflexivity|]. split; [reflexivity|].
    split; [apply same_files_refl|]. split; [apply dirs_kept_refl|].
    destruct (no_file_on_dir _ _ _ Hr Hc) as [es ->]. now exists es.
  - rewrite bool_decide_false by (intros [? ?]; discriminate). cbn [negb].
    rewrite (makedirs_at _ Hne).
    destruct (makedirs_succeeds _ _ Hr Hc) as [n' Hm]. rewrite Hm.
    eexists; split; [reflexivity|]. split; [reflexivity|]. cbn [root].
    split; [eapply makedirs_files; eauto|].
    split; [eapply makedirs_dirs; eauto|].
    exists ∅. cbn [root]. eapply makedirs_leaf; eauto.
Qed.

End Provisioning.

(** ** Frames and tables *)

Section Frames.





(** [pd.append] of a frame without rows changes nothing. *)
Lemma pd_append_no_rows (key : string) (cols : list string)
    (t : gmap string Frame) :
  pd.append key (mkFrame cols []) t = Ok t.
Proof. unfold pd.append, pd.empty. cbn. now rewrite orb_true_r. Qed.


End Frames.

(** ** The import stages that write statistics *)

Section Stages.

Context (E : Env).

Lemma file_at_dec (path : string) (w : World) :
  file_at path w \/ ~ file_at path w.
Proof.
  unfold file_at.
  destruct (fs.resolve (fs.split_path path) (root w)) as [[c|es]|];
    [left; eauto | right; intros [c H]; discriminate..].
Qed.

Lemma row_count_ledger (w w' : World) :
  ledger w' = ledger w -> row_count w' = row_count w.
Proof. unfold row_count. now intros ->. Qed.

(** The ledger seen after a handler has been called on a provisioned
    directory. *)
Lemma ledger_after_log (w w1 : World) (ev : Event) :
  same_files (root w) (root w1) ->
  ledger (mkWorld (root w1) (events w1 ++ [ev])) = ledger w.
Proof.
  intros Hf. rewrite (ledger_eq w), (ledger_eq (mkWorld _ _)).
  apply store_at_files. exact Hf.
Qed.

Lemma ontologiesImport_run (importDirectory : string)
    (ontologies : option (list string)) (w : World) (t t' : gmap string Frame)
    (records : list (list Cell)) (df : Frame) :
  provisionable (os_path.join importDirectory (ontologiesImportDir E)) w ->
  ledger w = Some t ->
  oh_generateGraphFiles E
    (os_path.join importDirectory (ontologiesImportDir E)) ontologies
    = Ok records ->
  generateStatsDataFrame records = Ok df ->
  pd.append (getStatsName (version E)) df t = Ok t' ->
  exists w', ontologiesImport E importDirectory ontologies w = (w', Ok tt) /\
             ledger w' = Some t' /\
             (t' = t -> same_files (root w) (root w')).
Proof.
  intros Hp Hl Hoh Hdf Ha.
  destruct (checkDirectory_ok _ _ Hp) as (w1 & Hc & Hev & Hf & Hk & Hd).
  unfold ontologiesImport, bind at 1. rewrite Hc.
  unfold bind at 1, call_oh, bind at 1, log, lift. rewrite Hoh.
  unfold bind at 1. rewrite Hdf.
  pose proof (writeStats_store E _ t df None
                (eq_trans (ledger_after_log w w1
                   (OntologiesHandler
                      (os_path.join importDirectory (ontologiesImportDir E))
                      ontologies) Hf) Hl)) as Hw.
  cbn [stats_key] in Hw. rewrite Ha in Hw.
  destruct Hw as (w' & -> & Hl' & _ & Hid).
  exists w'. split; [reflexivity|]. split; [assumption|].
  intros Ht. rewrite (Hid Ht). exact Hf.
Qed.

Lemma databasesImport_run (importDirectory : string)
    (databases : option (list string)) (n_jobs : Z) (w : World)
    (t t' : gmap string Frame) (records : list (list Cell)) (df : Frame) :
  provisionable (os_path.join importDirectory (databasesImportDir E)) w ->
  ledger w = Some t ->
  dh_generateGraphFiles E
    (os_path.join importDirectory (databasesImportDir E)) databases n_jobs
    = Ok records ->
  generateStatsDataFrame records = Ok df ->
  pd.append (getStatsName (version E)) df t = Ok t' ->
  exists w', databasesImport E importDirectory databases n_jobs w = (w', Ok tt) /\
             ledger w' = Some t' /\
             (t' = t -> same_files (root w) (root w')).
Proof.
  intros Hp Hl Hdh Hdf Ha.
  destruct (checkDirectory_ok _ _ Hp) as (w1 & Hc & Hev & Hf & Hk & Hd).
  unfold databasesImport, bind at 1. rewrite Hc.
  unfold bind at 1, call_dh, bind at 1, log, lift. rewrite Hdh.
  unfold bind at 1. rewrite Hdf.
  pose proof (writeStats_store E _ t df None
                (eq_trans (ledger_after_log w w1
                   (DatabasesHandler
                      (os_path.join importDirectory (databasesImportDir E))
                      databases n_jobs) Hf) Hl)) as Hw.
  cbn [stats_key] in Hw. rewrite Ha in Hw.
  destruct Hw as (w' & -> & Hl' & _ & Hid).
  exists w'. split; [reflexivity|]. split; [assumption|].
  intros Ht. rewrite (Hid Ht). exact Hf.
Qed.

End Stages.

(** ** The statistics store: the claims *)

Section StoreClaims.

Context (E : Env).

Lemma loadStats_no_file (path : string) (w : World) :
  path <> "" -> ~ file_at path w -> loadStats path w = (w, Ok None).
Proof.
  intros Hne Hnf. unfold loadStats, bind. rewrite (isfile_at _ Hne).
  destruct (fs.resolve (fs.split_path path) (root w)) as [[c|?]|] eqn:Hr;
    try reflexivity.
  destruct Hnf. now exists c.
Qed.

(** C3. [setupStats] is idempotent. Where the ledger file is a regular file
    it changes nothing and returns; and from any state, a second call in
    succession leaves the world of the first call as it is, so the ledger's
    row count is unchanged. *)
Theorem setupStats_idempotent (w : World) :
  (ledger_is_file w -> setupStats E w = (w, Ok tt)) /\
  fst (setupStats E (fst (setupStats E w))) = fst (setupStats E w) /\
  row_count (fst (setupStats E (fst (setupStats E w)))) =
  row_count (fst (setupStats E w)).
Proof.
  split; [apply setupStats_file|].
  assert (Hfix : fst (setupStats E (fst (setupStats E w))) = fst (setupStats E w)).
  { destruct (file_at_dec ledger_path w) as [Hf|Hnf].
    - rewrite <- ledger_is_file_eq in Hf.
      rewrite (setupStats_file E w Hf). cbn [fst].
      now rewrite (setupStats_file E w Hf).
    - rewrite <- ledger_is_file_eq in Hnf.
      destruct (setupStats_no_file E w Hnf) as [[e He]|(w' & Hw & Hl & _)].
      + rewrite He. cbn [fst]. now rewrite He.
      + rewrite Hw. cbn [fst].
        rewrite (setupStats_file E w'); [reflexivity|].
        rewrite ledger_eq in Hl. rewrite ledger_is_file_eq.
        eapply file_at_store; eauto. }
  split; [exact Hfix|]. now rewrite Hfix.
Qed.


(** A [writeStats] that raises, whatever the reason, has changed nothing. *)
Lemma writeStats_raise_world (w w' : World) (statsDf : Frame)
    (name : option string) (e : Exn) :
  writeStats E statsDf name w = (w', Raise e) -> w' = w.
Proof.
  destruct (ledger w) as [t|] eqn:Hl.
  - pose proof (writeStats_store E w t statsDf name Hl) as H.
    destruct (pd.append (stats_key E name) statsDf t) as [t'|e'].
    + destruct H as (w1 & -> & _). discriminate.
    + rewrite H. now intros [= <- _].
  - destruct (writeStats_no_store E w statsDf name Hl) as [e' ->].
    now intros [= <- _].
Qed.


(** C9. No record gives the frame over the eight configured columns with no
    row; on a ledger that is a store, [writeStats] of that frame returns and
    changes nothing, and an ontologies or databases import whose handler
    returns no record returns with the ledger and its row count as they
    were. *)
Theorem empty_stats_append_nothing (w : World) (t : gmap string Frame) :
  ledger w = Some t ->
  generateStatsDataFrame [] = Ok (mkFrame config.statsCols []) /\
  length config.statsCols = 8%nat /\
  (forall name, writeStats E (mkFrame config.statsCols []) name w = (w, Ok tt)) /\
  (forall importDirectory ontologies,
      provisionable (os_path.join importDirectory (ontologiesImportDir E)) w ->
      oh_generateGraphFiles E
        (os_path.join importDirectory (ontologiesImportDir E)) ontologies
        = Ok [] ->
      exists w', ontologiesImport E importDirectory ontologies w = (w', Ok tt) /\
                 ledger w' = Some t /\ row_count w' = row_count w) /\
  (forall importDirectory databases n_jobs,
      provisionable (os_path.join importDirectory (databasesImportDir E)) w ->
      dh_generateGraphFiles E
        (os_path.join importDirectory (databasesImportDir E)) databases n_jobs
        = Ok [] ->
      exists w', databasesImport E importDirectory databases n_jobs w
                 = (w', Ok tt) /\
                 ledger w' = Some t /\ row_count w' = row_count w).
Proof.
  intros Hl. split; [reflexivity|]. split; [reflexivity|]. split; [|split].
  - intros name. pose proof (writeStats_store E w t (mkFrame config.statsCols [])
                               name Hl) as H.
    rewrite pd_append_no_rows in H. destruct H as (w' & Hw & _ & _ & Hid).
    now rewrite Hw, (Hid eq_refl).
  - intros importDirectory ontologies Hp Hoh.
    destruct (ontologiesImport_run E importDirectory ontologies w t t []
                (mkFrame config.statsCols []) Hp Hl Hoh eq_refl
                (pd_append_no_rows _ _ _)) as (w' & Hw & Hl' & _).
    exists w'. split; [assumption|]. split; [assumption|].
    apply row_count_ledger. congruence.
  - intros importDirectory databases n_jobs Hp Hdh.
    destruct (databasesImport_run E importDirectory databases n_jobs w t t []
                (mkFrame config.statsCols []) Hp Hl Hdh eq_refl
                (pd_append_no_rows _ _ _)) as (w' & Hw & Hl' & _).
    exists w'. split; [assumption|]. split; [assumption|].
    apply row_count_ledger. congruence.
Qed.


End StoreClaims.

(** ** The states of the ledger file *)

Section LedgerStates.

Context (E : Env).














End LedgerStates.



(** ** The worker pool *)

Section Pool.

Context (E : Env).

Lemma perform_ready (s : Step) (w : World) :
  ready E w s ->
  exists w1, perform E s w = (w1, Ok tt) /\
             same_files (root w) (root w1) /\
             dirs_kept (root w) (root w1) /\
             events w1 = events w ++ step_events s /\
             (forall d, s = CheckDirectory d -> is_dir d w1).
Proof.
  destruct s as [d|project dataset]; cbn [ready perform step_events].
  - intros Hp. destruct (checkDirectory_ok _ _ Hp) as (w1 & Hc & Hev & Hf & Hk & Hd).
    exists w1. rewrite app_nil_r. split; [exact Hc|]. split; [exact Hf|].
    split; [exact Hk|]. split; [exact Hev|]. intros d' [= <-]. exact Hd.
  - intros Heh. unfold call_eh, bind, log, lift. rewrite Heh.
    eexists; split; [reflexivity|]. cbn [root events].
    split; [apply same_files_refl|]. split; [apply dirs_kept_refl|].
    split; [reflexivity|]. discriminate.
Qed.

Lemma ready_files (s : Step) (w w1 : World) :
  same_files (root w) (root w1) -> ready E w s -> ready E w1 s.
Proof.
  destruct s as [d|project dataset]; cbn [ready]; [|auto].
  apply provisionable_files.
Qed.

Lemma concat_pending (tasks : list (list Step)) :
  concat (filter (fun t => unfinished t = true) tasks) = concat tasks.
Proof.
  induction tasks as [|t tasks IH]; [reflexivity|].
  destruct t as [|s t].
  - rewrite filter_cons_False by discriminate. exact IH.
  - rewrite filter_cons_True by reflexivity. cbn. now rewrite IH.
Qed.

Lemma pending_unfinished (tasks : list (list Step)) (i : nat) (t : list Step) :
  filter (fun t => unfinished t = true) tasks !! i = Some t ->
  exists s rest, t = s :: rest.
Proof.
  intros H%list_elem_of_lookup_2%list_elem_of_filter.
  destruct H as [H _]. destruct t as [|s rest]; [discriminate|eauto].
Qed.

Lemma pool_S (fuel workers : nat) (sched : list nat) (tasks : list (list Step)) :
  pool E (S fuel) workers sched tasks =
  let pending := filter (fun t => unfinished t = true) tasks in
  let running := take workers pending in
  let choice := hd O sched in
  let i := if (choice <? length running)%nat then choice else O in
  match pending !! i with
  | Some (s :: rest) =>
      perform E s ;; pool E fuel workers (tl sched) (<[i := rest]> pending)
  | _ => ret tt
  end.
Proof. reflexivity. Qed.

Lemma chosen_in_range (workers choice : nat) (pending : list (list Step)) :
  pending <> [] ->
  ((if (choice <? length (take workers pending))%nat then choice else O)
   < length pending)%nat.
Proof.
  intros Hne. destruct (Nat.ltb_spec choice (length (take workers pending)))
    as [Hlt|_].
  - rewrite length_take in Hlt. lia.
  - destruct pending; [congruence|cbn; lia].
Qed.

Lemma flat_map_step_events_perm (l l' : list Step) :
  l ≡ₚ l' -> flat_map step_events l ≡ₚ flat_map step_events l'.
Proof. intros H. now apply Permutation_flat_map. Qed.

(** With fuel for every step and every step ready, the pool returns; it has
    then made the handler invocations of all the steps, each once, in some
    order, has made every directory the steps provision, and has touched no
    regular file. *)
Lemma pool_runs (fuel workers : nat) :
  forall (sched : list nat) (tasks : list (list Step)) (w : World),
    (total_steps tasks <= fuel)%nat ->
    (forall s, s ∈ concat tasks -> ready E w s) ->
    exists w', pool E fuel workers sched tasks w = (w', Ok tt) /\
               same_files (root w) (root w') /\
               dirs_kept (root w) (root w') /\
               (exists evs, events w' = events w ++ evs /\
                            evs ≡ₚ flat_map step_events (concat tasks)) /\
               (forall d, CheckDirectory d ∈ concat tasks -> is_dir d w').
Proof.
  induction fuel as [|fuel IH]; intros sched tasks w Hfuel Hready.
  - assert (Hnil : concat tasks = []).
    { unfold total_steps in Hfuel. destruct (concat tasks); [reflexivity|].
      cbn in Hfuel. lia. }
    exists w. split; [reflexivity|]. split; [apply same_files_refl|].
    split; [apply dirs_kept_refl|]. rewrite Hnil. split.
    + exists []. now rewrite app_nil_r.
    + intros d Hd. inversion Hd.
  - rewrite pool_S. cbv zeta.
    pose proof (concat_pending tasks) as Hcat.
    remember (filter (fun t => unfinished t = true) tasks) as pending eqn:Hpend.
    set (i := if (hd O sched <? length (take workers pending))%nat
              then hd O sched else O).
    destruct (decide (pending = [])) as [Hnil|Hne].
    { rewrite Hnil in *. rewrite lookup_nil.
      cbn in Hcat. exists w. split; [reflexivity|].
      split; [apply same_files_refl|]. split; [apply dirs_kept_refl|].
      rewrite <- Hcat. split.
      - exists []. now rewrite app_nil_r.
      - intros d Hd. inversion Hd. }
    assert (Hi : (i < length pending)%nat) by now apply chosen_in_range.
    destruct (lookup_lt_is_Some_2 _ _ Hi) as [task Htask].
    rewrite Htask.
    assert (Htask' := Htask). rewrite Hpend in Htask'.
    destruct (pending_unfinished tasks i task Htask') as (s & rest & ->).
    clear Htask'.
    assert (Hsplit : concat tasks ≡ₚ s :: concat (<[i := rest]> pending)).
    { rewrite <- Hcat, <- (take_drop_middle _ _ _ Htask) at 1.
      rewrite insert_take_drop by exact Hi.
      rewrite !concat_app. cbn [concat app].
      now rewrite <- Permutation_middle. }
    assert (Hs : s ∈ concat tasks).
    { rewrite Hsplit. apply list_elem_of_here. }
    destruct (perform_ready s w (Hready s Hs))
      as (w1 & Hp & Hf1 & Hk1 & Hev1 & Hd1).
    unfold bind. rewrite Hp.
    destruct (IH (tl sched) (<[i := rest]> pending) w1)
      as (w' & Hw' & Hf' & Hk' & (evs & Hev' & Hperm) & Hd').
    + unfold total_steps in *. apply Permutation_length in Hsplit.
      cbn in Hsplit. lia.
    + intros s' Hs'. apply (ready_files s' w w1 Hf1). apply Hready.
      rewrite Hsplit. now apply list_elem_of_further.
    + exists w'. split; [exact Hw'|].
      split; [eapply same_files_trans; eauto|].
      split; [eapply dirs_kept_trans; eauto|]. split.
      * exists (step_events s ++ evs). split.
        -- now rewrite Hev', Hev1, app_assoc.
        -- rewrite (flat_map_step_events_perm _ _ Hsplit). cbn [flat_map].
           now apply Permutation_app_head.
      * intros d Hd. rewrite Hsplit in Hd. apply elem_of_cons in Hd as [Hd|Hd].
        -- eapply is_dir_kept; [exact Hk'|]. apply Hd1. now symmetry.
        -- now apply Hd'.
Qed.

End Pool.

(** ** The experiments import *)

Section Experiments.

Context (E : Env).

Lemma experimentImport_events (out src project : string) :
  flat_map step_events (experimentImport E out src project) =
  map (ExperimentsHandler project)
    (listDirectoryFolders E (os_path.join src project)).
Proof.
  unfold experimentImport. cbn [flat_map step_events app].
  induction (listDirectoryFolders E (os_path.join src project)) as [|d ds IH];
    [reflexivity|].
  cbn [flat_map app step_events map]. now rewrite IH.
Qed.

Lemma experimentImport_steps (out src project : string) (s : Step) :
  s ∈ experimentImport E out src project <->
  s = CheckDirectory (os_path.join out project) \/
  exists dataset,
    dataset ∈ listDirectoryFolders E (os_path.join src project) /\
    (s = CheckDirectory (os_path.join (os_path.join out project) dataset) \/
     s = GenerateDatasetImports project dataset).
Proof.
  unfold experimentImport. rewrite elem_of_cons.
  apply or_iff_compat_l.
  induction (listDirectoryFolders E (os_path.join src project)) as [|d ds IH].
  - cbn. split; [intros H; inversion H|intros (d & H & _); inversion H].
  - cbn [flat_map app]. rewrite !elem_of_cons, IH. split.
    + intros [->|[->|(d' & Hd' & Hs)]].
      * exists d. split; [apply list_elem_of_here|now left].
      * exists d. split; [apply list_elem_of_here|now right].
      * exists d'. split; [now apply list_elem_of_further|exact Hs].
    + intros (d' & Hd' & Hs). apply elem_of_cons in Hd' as [->|Hd'].
      * destruct Hs as [->| ->]; auto.
      * right. right. eauto.
Qed.

Lemma tasks_events (out src : string) (projects : list string) :
  flat_map step_events (concat (map (experimentImport E out src) projects)) =
  flat_map (fun project =>
    map (ExperimentsHandler project)
      (listDirectoryFolders E (os_path.join src project))) projects.
Proof.
  induction projects as [|p ps IH]; [reflexivity|].
  cbn [map concat flat_map]. rewrite flat_map_app, experimentImport_events.
  now rewrite IH.
Qed.


Lemma elem_of_concat {A : Type} (x : A) (l : list (list A)) :
  x ∈ concat l <-> exists t, x ∈ t /\ t ∈ l.
Proof.
  rewrite list_elem_of_In, in_concat. split.
  - intros (t & Ht & Hx). exists t. now rewrite !list_elem_of_In.
  - intros (t & Hx & Ht). exists t. now rewrite <- !list_elem_of_In.
Qed.

Lemma elem_of_map {A B : Type} (f : A -> B) (l : list A) (y : B) :
  y ∈ map f l <-> exists x, y = f x /\ x ∈ l.
Proof.
  rewrite list_elem_of_In, in_map_iff. split.
  - intros (x & <- & Hx). exists x. now rewrite list_elem_of_In.
  - intros (x & -> & Hx). exists x. now rewrite <- list_elem_of_In.
Qed.



Lemma effective_n_jobs_nonzero (n_jobs : Z) :
  n_jobs <> 0 -> exists workers, effective_n_jobs E n_jobs = Ok workers.
Proof.
  intros Hn. unfold effective_n_jobs.
  destruct (Z.eqb_spec n_jobs 0) as [?|_]; [contradiction|].
  destruct (n_jobs <? 0); eauto.
Qed.


End Experiments.

(** ** The claims on the example installation *)

Lemma setupStats_idempotent_witness :
  ledger_is_file example.w_ready /\
  setupStats example.E0 example.w_ready = (example.w_ready, Ok tt).
Proof.
  assert (H : ledger_is_file example.w_ready).
  { exists (HDF5 ∅). vm_compute. reflexivity. }
  split; [exact H|].
  exact (proj1 (setupStats_idempotent example.E0 example.w_ready) H).
Defined.



Lemma empty_stats_append_nothing_witness :
  ledger example.w_ready = Some ∅ /\
  writeStats example.E0 (mkFrame config.statsCols []) None example.w_ready
  = (example.w_ready, Ok tt).
Proof.
  assert (H : ledger example.w_ready = Some ∅) by (vm_compute; reflexivity).
  split; [exact H|].
  exact (proj1 (proj2 (proj2
           (empty_stats_append_nothing example.E0 example.w_ready ∅ H))) None).
Defined.




(** ** [fullImport] *)

Section FullImport.

Lemma fullImport_split (E : Env) (sched : list nat) (w : World) :
  fullImport E sched w =
  (before_experiments E ;;
   experimentsImport E (PStr config.importDirectory) 4 sched ;;
   print_elapsed) w.
Proof.
  unfold fullImport, before_experiments. cbv zeta. unfold bind.
  destruct (checkDirectory config.importDirectory w) as [w1 [[]|e]];
    [|reflexivity].
  destruct (setupStats E w1) as [w2 [[]|e]]; [|reflexivity].
  destruct (ontologiesImport E config.importDirectory None w2) as [w3 [[]|e]];
    [|reflexivity].
  destruct (print_elapsed w3) as [w4 [[]|e]]; [|reflexivity].
  destruct (databasesImport E config.importDirectory None 4 w4)
    as [w5 [[]|e]]; [|reflexivity].
  destruct (print_elapsed w5) as [w6 [[]|e]]; reflexivity.
Qed.

Lemma example_two_stages :
  before_experiments example.E0 example.w_empty
  = (example.w_two_stages, Ok tt) /\
  events example.w_two_stages =
    [OntologiesHandler "../../../data/imports/ontologies" None;
     ElapsedPrinted;
     DatabasesHandler "../../../data/imports/databases" None 4;
     ElapsedPrinted].
Proof. split; vm_compute; reflexivity. Qed.

Lemma example_character_steps_ready (s : Step) :
  s ∈ concat (map (experimentImport example.E0
                     (experimentsImportDirectory example.E0)
                     (experimentsDir example.E0))
                (py.iter_str config.importDirectory)) ->
  ready example.E0 example.w_two_stages s.
Proof.
  intros Hs. apply list_elem_of_In in Hs. vm_compute in Hs.
  repeat (destruct Hs as [<-|Hs];
          [first [reflexivity
                 | split; [vm_compute; discriminate | vm_compute; reflexivity]]|]).
  destruct Hs.
Qed.

(** C1, on the example installation. [fullImport] hands the import
    directory to [experimentsImport] as its [projects], which is then
    iterated character by character. Whatever the pool does, the run calls
    the ontologies and then the databases handler, and then calls the
    experiments handler six times on each of (".", "P1") and (".", "P2"),
    once for every dot of the import directory; it never calls it on
    ("P1", "d1") or ("P2", "d1"), the pairs of the source tree. *)
Theorem fullImport_experiments_over_characters (sched : list nat) :
  iterate (PStr config.importDirectory) =
    ["."; "."; "/"; "."; "."; "/"; "."; "."; "/"; "d"; "a"; "t"; "a"; "/";
     "i"; "m"; "p"; "o"; "r"; "t"; "s"] /\
  source_pairs example.E0 = [("P1", "d1"); ("P2", "d1")] /\
  exists w' evs,
    fullImport example.E0 sched example.w_empty = (w', Ok tt) /\
    events w' =
      [OntologiesHandler "../../../data/imports/ontologies" None;
       ElapsedPrinted;
       DatabasesHandler "../../../data/imports/databases" None 4;
       ElapsedPrinted] ++ evs ++ [ElapsedPrinted] /\
    evs ≡ₚ concat (replicate 6 [ExperimentsHandler "." "P1";
                                ExperimentsHandler "." "P2"]) /\
    (ExperimentsHandler "P1" "d1" ∉ events w') /\
    (ExperimentsHandler "P2" "d1" ∉ events w').
Proof.
  split; [reflexivity|]. split; [reflexivity|].
  destruct example_two_stages as [Hbefore Hevents].
  set (tasks := map (experimentImport example.E0
                       (experimentsImportDirectory example.E0)
                       (experimentsDir example.E0))
                  (py.iter_str config.importDirectory)).
  assert (Hc : checkDirectory (experimentsImportDirectory example.E0)
                 example.w_two_stages
               = (mkWorld (root (fst (checkDirectory
                                        (experimentsImportDirectory example.E0)
                                        example.w_two_stages)))
                    (events example.w_two_stages), Ok tt))
    by (vm_compute; reflexivity).
  set (w0 := mkWorld (root (fst (checkDirectory
                                   (experimentsImportDirectory example.E0)
                                   example.w_two_stages)))
               (events example.w_two_stages)) in *.
  assert (Hf0 : same_files (root example.w_two_stages) (root w0)).
  { destruct (checkDirectory_ok (experimentsImportDirectory example.E0)
                example.w_two_stages) as (w1 & Hc1 & _ & Hf & _).
    - split; [vm_compute; discriminate | vm_compute; reflexivity].
    - rewrite Hc in Hc1. now injection Hc1 as <-. }
  destruct (pool_runs example.E0 (total_steps tasks) 4 sched tasks w0)
    as (w1 & Hw1 & _ & _ & (evs & Hev1 & Hperm) & _); [lia| |].
  { intros s Hs. apply (ready_files example.E0 s example.w_two_stages w0 Hf0).
    now apply example_character_steps_ready. }
  assert (Hevs : evs ≡ₚ concat (replicate 6 [ExperimentsHandler "." "P1";
                                             ExperimentsHandler "." "P2"])).
  { rewrite Hperm. unfold tasks. rewrite tasks_events.
    vm_compute. reflexivity. }
  exists (mkWorld (root w1) (events w1 ++ [ElapsedPrinted])), evs.
  split; [|split; [|split; [exact Hevs|]]].
  - rewrite fullImport_split. unfold bind at 1. rewrite Hbefore.
    unfold bind at 1. unfold experimentsImport, bind at 1. rewrite Hc.
    unfold Parallel, bind at 1, lift.
    change (effective_n_jobs example.E0 4) with (@Ok nat 4%nat).
    lazy beta iota. cbn [iterate]. fold tasks. rewrite Hw1. reflexivity.
  - cbn [events]. rewrite Hev1. unfold w0. cbn [events]. rewrite Hevents.
    now rewrite <- !app_assoc.
  - cbn [events]. rewrite Hev1. unfold w0. cbn [events]. rewrite Hevents.
    split; intros Hin; rewrite !elem_of_app, Hevs in Hin;
      apply list_elem_of_In in Hin || idtac;
      destruct Hin as [[Hin|Hin]|Hin]; apply list_elem_of_In in Hin;
      vm_compute in Hin; intuition discriminate.
Qed.

End FullImport.

(** * Further properties of the importer *)

(** ** Steps that may fail *)

Section AnyOutcome.

Context (E : Env).

(** Whatever it returns, [checkDirectory] calls no handler, changes no
    regular file and loses no directory; when it raises it has changed
    nothing. *)
Lemma checkDirectory_any (d : string) (w : World) :
  events (fst (checkDirectory d w)) = events w /\
  same_files (root w) (root (fst (checkDirectory d w))) /\
  dirs_kept (root w) (root (fst (checkDirectory d w))) /\
  (forall e, snd (checkDirectory d w) = Raise e -> fst (checkDirectory d w) = w).
Proof.
  assert (Hsame : events w = events w /\ same_files (root w) (root w) /\
                  dirs_kept (root w) (root w) /\ (forall e : Exn, w = w)).
  { split; [reflexivity|]. split; [apply same_files_refl|].
    split; [apply dirs_kept_refl|reflexivity]. }
  destruct Hsame as (Hs1 & Hs2 & Hs3 & Hs4).
  destruct (decide (d = "")) as [->|Hne].
  { change (checkDirectory "" w) with (w, @Raise unit FileNotFoundError).
    cbn [fst snd]. auto. }
  unfold checkDirectory, bind. rewrite (exists_at _ Hne).
  destruct (fs.resolve (fs.split_path d) (root w)) as [m|] eqn:Hr.
  - rewrite bool_decide_true by eauto. cbn [negb ret fst snd].
    split; [reflexivity|]. split; [apply same_files_refl|].
    split; [apply dirs_kept_refl|]. discriminate.
  - rewrite bool_decide_false by (intros [? ?]; discriminate). cbn [negb].
    rewrite (makedirs_at _ Hne).
    destruct (fs.makedirs (fs.split_path d) (root w)) as [n|e] eqn:Hm;
      cbn [fst snd root events]; [|auto].
    split; [reflexivity|]. split; [eapply makedirs_files; eauto|].
    split; [eapply makedirs_dirs; eauto|]. discriminate.
Qed.

(** Whatever it returns, a worker step changes no regular file and adds to
    the log nothing but invocations of the experiments handler. *)
Lemma perform_any (s : Step) (w : World) :
  same_files (root w) (root (fst (perform E s w))) /\
  exists evs, events (fst (perform E s w)) = events w ++ evs /\
              Forall is_experiments_event evs.
Proof.
  destruct s as [d|project dataset]; cbn [perform].
  - destruct (checkDirectory_any d w) as (Hev & Hf & _).
    split; [exact Hf|]. exists []. rewrite app_nil_r. auto.
  - unfold call_eh, bind, log, lift.
    destruct (eh_generateDatasetImports E project dataset);
      cbn [fst root events]; (split; [apply same_files_refl|]);
      exists [ExperimentsHandler project dataset];
      (split; [reflexivity|]); repeat constructor.
Qed.

(** Whatever it returns, the pool changes no regular file and adds to the
    log nothing but invocations of the experiments handler. *)
Lemma pool_any (fuel workers : nat) :
  forall (sched : list nat) (tasks : list (list Step)) (w : World),
    same_files (root w) (root (fst (pool E fuel workers sched tasks w))) /\
    exists evs,
      events (fst (pool E fuel workers sched tasks w)) = events w ++ evs /\
      Forall is_experiments_event evs.
Proof.
  assert (Hstay : forall w : World,
             same_files (root w) (root w) /\
             exists evs, events w = events w ++ evs /\
                         Forall is_experiments_event evs).
  { intros w. split; [apply same_files_refl|]. exists [].
    now rewrite app_nil_r. }
  induction fuel as [|fuel IH]; intros sched tasks w; [apply Hstay|].
  rewrite pool_S. cbv zeta.
  destruct (filter (fun t => unfinished t = true) tasks !! _) as [[|s rest]|];
    [apply Hstay| |apply Hstay].
  unfold bind.
  destruct (perform_any s w) as (Hf1 & evs1 & Hev1 & Hall1).
  destruct (perform E s w) as [w1 [[]|e]]; cbn [fst] in *.
  - match goal with
    | |- context [pool E fuel workers ?sc ?ts w1] =>
        destruct (IH sc ts w1) as (Hf2 & evs2 & Hev2 & Hall2)
    end.
    split; [eapply same_files_trans; eauto|].
    exists (evs1 ++ evs2). split; [now rewrite Hev2, Hev1, app_assoc|].
    now apply Forall_app.
  - split; [exact Hf1|]. eauto.
Qed.

End AnyOutcome.

(** ** The experiments import, whatever its arguments *)

Section ExperimentsAny.

Context (E : Env).

Lemma experimentsImport_unfold (projects : Projects) (n_jobs : Z)
    (sched : list nat) :
  experimentsImport E projects n_jobs sched =
  (checkDirectory (experimentsImportDirectory E) ;;
   Parallel E n_jobs sched
     (map (experimentImport E (experimentsImportDirectory E) (experimentsDir E))
        (resolved_projects E projects))).
Proof. now destruct projects. Qed.

Lemma project_pairs_events (projects : list string) :
  map pair_event (project_pairs E projects) =
  flat_map (fun project =>
    map (ExperimentsHandler project)
      (listDirectoryFolders E (os_path.join (experimentsDir E) project)))
    projects.
Proof.
  unfold project_pairs. induction projects as [|p ps IH]; [reflexivity|].
  cbn [flat_map]. rewrite map_app, IH. f_equal. now rewrite map_map.
Qed.

(** Whatever its arguments and outcome, [experimentsImport] changes no
    regular file and logs invocations of the experiments handler only. *)
Lemma experimentsImport_keeps_files (projects : Projects) (n_jobs : Z)
    (sched : list nat) (w : World) :
  same_files (root w)
    (root (fst (experimentsImport E projects n_jobs sched w))) /\
  exists evs,
    events (fst (experimentsImport E projects n_jobs sched w))
    = events w ++ evs /\
    Forall is_experiments_event evs.
Proof.
  rewrite experimentsImport_unfold. unfold bind.
  destruct (checkDirectory_any (experimentsImportDirectory E) w)
    as (Hev & Hf & _).
  destruct (checkDirectory (experimentsImportDirectory E) w)
    as [w0 [[]|e]]; cbn [fst] in *.
  - unfold Parallel, bind, lift.
    destruct (effective_n_jobs E n_jobs) as [workers|e].
    + match goal with
      | |- context [pool E ?fu workers sched ?ts w0] =>
          destruct (pool_any E fu workers sched ts w0)
            as (Hf1 & evs & Hev1 & Hall)
      end.
      split; [eapply same_files_trans; eauto|].
      exists evs. split; [now rewrite Hev1, Hev|exact Hall].
    + cbn [fst]. split; [exact Hf|]. exists []. now rewrite app_nil_r, Hev.
  - split; [exact Hf|]. exists []. now rewrite app_nil_r, Hev.
Qed.

(** X7. [experimentsImport] writes no statistics: whatever its arguments and
    whether it returns or raises, no regular file has changed, so the ledger
    and its row count are what they were, and the log has grown by
    invocations of the experiments handler only. *)
Theorem experimentsImport_keeps_ledger (projects : Projects) (n_jobs : Z)
    (sched : list nat) (w : World) :
  same_files (root w)
    (root (fst (experimentsImport E projects n_jobs sched w))) /\
  ledger (fst (experimentsImport E projects n_jobs sched w)) = ledger w /\
  row_count (fst (experimentsImport E projects n_jobs sched w)) = row_count w /\
  exists evs,
    events (fst (experimentsImport E projects n_jobs sched w))
    = events w ++ evs /\
    Forall is_experiments_event evs.
Proof.
  destruct (experimentsImport_keeps_files projects n_jobs sched w)
    as [Hf Hev].
  assert (Hl : ledger (fst (experimentsImport E projects n_jobs sched w))
               = ledger w).
  { rewrite (ledger_eq w), (ledger_eq (fst _)). now apply store_at_files. }
  split; [exact Hf|]. split; [exact Hl|]. split; [|exact Hev].
  now apply row_count_ledger.
Qed.

(** X6. With [n_jobs = 0] [experimentsImport] never returns normally and
    never calls the handler; where the import root can be provisioned the
    exception is joblib's [ValueError], raised after the root has been
    made. *)
Theorem experimentsImport_zero_jobs (projects : Projects) (sched : list nat)
    (w : World) :
  (exists w' e,
      experimentsImport E projects 0 sched w = (w', Raise e) /\
      events w' = events w) /\
  (provisionable (experimentsImportDirectory E) w ->
   exists w',
     experimentsImport E projects 0 sched w = (w', Raise ValueError) /\
     events w' = events w /\
     is_dir (experimentsImportDirectory E) w').
Proof.
  rewrite experimentsImport_unfold. unfold bind. split.
  - destruct (checkDirectory_any (experimentsImportDirectory E) w)
      as (Hev & _).
    destruct (checkDirectory (experimentsImportDirectory E) w)
      as [w0 [[]|e]]; cbn [fst] in *; eauto.
  - intros Hp.
    destruct (checkDirectory_ok _ _ Hp) as (w0 & -> & Hev & _ & _ & Hd).
    exists w0. auto.
Qed.

(** The experiments import on its resolved projects, for a pool that runs. *)
Lemma experimentsImport_runs (projects : Projects) (n_jobs : Z)
    (sched : list nat) (w : World) :
  n_jobs <> 0 ->
  provisionable (experimentsImportDirectory E) w ->
  (forall project,
      project ∈ resolved_projects E projects ->
      provisionable (os_path.join (experimentsImportDirectory E) project) w /\
      forall dataset,
        dataset ∈ listDirectoryFolders E
                    (os_path.join (experimentsDir E) project) ->
        provisionable
          (os_path.join (os_path.join (experimentsImportDirectory E) project)
             dataset) w /\
        eh_generateDatasetImports E project dataset = Ok tt) ->
  exists w0 workers,
    checkDirectory (experimentsImportDirectory E) w = (w0, Ok tt) /\
    events w0 = events w /\
    effective_n_jobs E n_jobs = Ok workers /\
    (forall s,
        s ∈ concat (map (experimentImport E (experimentsImportDirectory E)
                           (experimentsDir E))
                      (resolved_projects E projects)) ->
        ready E w0 s).
Proof.
  intros Hn Hroot Hall.
  destruct (checkDirectory_ok _ _ Hroot) as (w0 & Hc & Hev0 & Hf0 & Hk0 & Hd0).
  destruct (effective_n_jobs_nonzero E n_jobs Hn) as [workers Hworkers].
  exists w0, workers. split; [exact Hc|]. split; [exact Hev0|].
  split; [exact Hworkers|].
  intros s Hs. apply (ready_files E s w w0 Hf0).
  apply elem_of_concat in Hs as (task & Hs & Htask).
  apply elem_of_map in Htask as (project & -> & Hproject).
  destruct (Hall project Hproject) as [Hp Hds].
  apply experimentImport_steps in Hs as [->|(d & Hd & [->| ->])];
    [exact Hp|apply (Hds d Hd)..].
Qed.


(** With one worker the pool runs the tasks one after the other, in order,
    whatever the schedule says. *)
Lemma pool_serial (fuel : nat) :
  forall (sched : list nat) (tasks : list (list Step)) (w : World),
    (total_steps tasks <= fuel)%nat ->
    (forall s, s ∈ concat tasks -> ready E w s) ->
    exists w', pool E fuel 1 sched tasks w = (w', Ok tt) /\
               events w' = events w ++ flat_map step_events (concat tasks).
Proof.
  induction fuel as [|fuel IH]; intros sched tasks w Hfuel Hready.
  - assert (Hnil : concat tasks = []).
    { unfold total_steps in Hfuel. destruct (concat tasks); [reflexivity|].
      cbn in Hfuel. lia. }
    exists w. rewrite Hnil. cbn. now rewrite app_nil_r.
  - rewrite pool_S. cbv zeta.
    pose proof (concat_pending tasks) as Hcat.
    pose proof (pending_unfinished tasks 0) as Hun.
    destruct (filter (fun t => unfinished t = true) tasks) as [|t0 pend].
    { rewrite lookup_nil. cbn in Hcat. exists w. rewrite <- Hcat. cbn.
      now rewrite app_nil_r. }
    assert (Hi : (if (hd O sched <? length (take 1 (t0 :: pend)))%nat
                  then hd O sched else O) = O).
    { cbn. destruct (hd O sched) as [|[|c]]; reflexivity. }
    rewrite Hi. cbn [lookup list_lookup].
    destruct (Hun t0 eq_refl) as (s & rest & ->).
    cbn in Hcat.
    assert (Hs : s ∈ concat tasks).
    { rewrite <- Hcat. apply list_elem_of_here. }
    destruct (perform_ready E s w (Hready s Hs))
      as (w1 & Hp & Hf1 & _ & Hev1 & _).
    unfold bind. rewrite Hp.
    destruct (IH (tl sched) (rest :: pend) w1) as (w' & Hw' & Hev').
    + unfold total_steps in *. rewrite <- Hcat in Hfuel. cbn in *. lia.
    + intros s' Hs'. apply (ready_files E s' w w1 Hf1). apply Hready.
      rewrite <- Hcat. cbn in Hs'. now apply list_elem_of_further.
    + exists w'. split; [exact Hw'|].
      rewrite Hev', Hev1, <- Hcat. cbn [concat flat_map app].
      now rewrite <- app_assoc.
Qed.

(** X4. With [n_jobs = 1], the default, the projects are imported one after
    the other: where the directories can be provisioned and the handler
    takes every pair, the handler invocations are made in the order of the
    resolved projects and, within a project, in the order of its datasets,
    whatever the schedule. *)
Theorem experimentsImport_serial_order (projects : Projects)
    (sched : list nat) (w : World) :
  provisionable (experimentsImportDirectory E) w ->
  (forall project,
      project ∈ resolved_projects E projects ->
      provisionable (os_path.join (experimentsImportDirectory E) project) w /\
      forall dataset,
        dataset ∈ listDirectoryFolders E
                    (os_path.join (experimentsDir E) project) ->
        provisionable
          (os_path.join (os_path.join (experimentsImportDirectory E) project)
             dataset) w /\
        eh_generateDatasetImports E project dataset = Ok tt) ->
  exists w',
    experimentsImport E projects 1 sched w = (w', Ok tt) /\
    events w' =
      events w ++
      map pair_event (project_pairs E (resolved_projects E projects)).
Proof.
  intros Hroot Hall.
  destruct (experimentsImport_runs projects 1 sched w) as
    (w0 & workers & Hc & Hev0 & Hworkers & Hready);
    [discriminate|exact Hroot|exact Hall|].
  injection Hworkers as <-.
  set (tasks := map (experimentImport E (experimentsImportDirectory E)
                       (experimentsDir E))
                  (resolved_projects E projects)) in *.
  destruct (pool_serial (total_steps tasks) sched tasks w0)
    as (w' & Hw' & Hev'); [lia|exact Hready|].
  exists w'. split.
  { rewrite experimentsImport_unfold. unfold bind at 1. rewrite Hc.
    exact Hw'. }
  rewrite Hev', Hev0. unfold tasks.
  now rewrite tasks_events, project_pairs_events.
Qed.

End ExperimentsAny.

(** ** What the store operations leave alone *)

Section StoreFrame.

Lemma same_files_but_refl (p : list string) (n : Node) : same_files_but p n n.
Proof. now intros q c _. Qed.

Lemma same_files_but_trans (p : list string) (n1 n2 n3 : Node) :
  same_files_but p n1 n2 -> same_files_but p n2 n3 -> same_files_but p n1 n3.
Proof. intros H12 H23 q c Hq. now rewrite (H23 q c Hq), (H12 q c Hq). Qed.

Lemma same_files_weaken (p : list string) (n n' : Node) :
  same_files n n' -> same_files_but p n n'.
Proof. intros H q c _. apply H. Qed.

Lemma update_store_frame (p : list string)
    (f : gmap string Frame -> Res (gmap string Frame)) (n n' : Node) :
  fs.update_store p f n = Ok n' -> same_files_but p n n' /\ dirs_kept n n'.
Proof.
  revert n n'; induction p as [|d p IH]; intros n n' H; cbn in H.
  - destruct n as [[t|]|?]; try discriminate.
    destruct (f t) as [t'|]; [|discriminate]. cbn in H. injection H as <-.
    split.
    + intros [|e q] c Hq; [congruence|reflexivity].
    + intros [|e q] es Hes; discriminate.
  - destruct n as [?|es]; [discriminate|].
    destruct (es !! d) as [child|] eqn:Hd; [|discriminate].
    destruct (fs.update_store p f child) as [child'|] eqn:Hc; [|discriminate].
    cbn in H. injection H as <-. destruct (IH _ _ Hc) as [Hf Hk]. split.
    + intros [|e q] c Hq; [easy|]. cbn.
      destruct (decide (d = e)) as [<-|Hne].
      * rewrite lookup_insert_eq, Hd. apply Hf. congruence.
      * now rewrite lookup_insert_ne.
    + intros [|e q] es' Hes; [cbn; eauto|]. cbn in *.
      destruct (decide (d = e)) as [<-|Hne].
      * rewrite lookup_insert_eq. rewrite Hd in Hes. eauto.
      * rewrite lookup_insert_ne by done. eauto.
Qed.

Lemma open_store_frame (p : list string) (n n' : Node) :
  fs.open_store p n = Ok n' -> same_files_but p n n' /\ dirs_kept n n'.
Proof.
  revert n n'; induction p as [|d p IH]; intros n n' H; cbn in H.
  - destruct n as [[t|]|?]; try discriminate. injection H as <-.
    split; [apply same_files_but_refl|apply dirs_kept_refl].
  - destruct n as [?|es]; [discriminate|].
    destruct (es !! d) as [child|] eqn:Hd.
    + destruct (fs.open_store p child) as [child'|] eqn:Hc; [|discriminate].
      cbn in H. injection H as <-. destruct (IH _ _ Hc) as [Hf Hk]. split.
      * intros [|e q] c Hq; [easy|]. cbn.
        destruct (decide (d = e)) as [<-|Hne].
        -- rewrite lookup_insert_eq, Hd. apply Hf. congruence.
        -- now rewrite lookup_insert_ne.
      * intros [|e q] es' Hes; [cbn; eauto|]. cbn in *.
        destruct (decide (d = e)) as [<-|Hne].
        -- rewrite lookup_insert_eq. rewrite Hd in Hes. eauto.
        -- rewrite lookup_insert_ne by done. eauto.
    + destruct p; [|discriminate]. injection H as <-. split.
      * intros [|e q] c Hq; [easy|]. cbn.
        destruct (decide (d = e)) as [<-|Hne].
        -- rewrite lookup_insert_eq, Hd. destruct q; [congruence|]. easy.
        -- now rewrite lookup_insert_ne.
      * intros [|e q] es' Hes; [cbn; eauto|]. cbn in *.
        destruct (decide (d = e)) as [<-|Hne].
        -- now rewrite Hd in Hes.
        -- rewrite lookup_insert_ne by done. eauto.
Qed.

(** A store can be opened at [p ++ [f]] only in a directory. *)
Lemma open_store_parent (p : list string) (f : string) (n n' : Node) :
  fs.open_store (p ++ [f]) n = Ok n' ->
  exists es, fs.resolve p n = Some (Dir es).
Proof.
  revert n n'; induction p as [|d p IH]; intros n n' H; cbn in H.
  - destruct n as [?|es]; [discriminate|]. cbn. eauto.
  - destruct n as [?|es]; [discriminate|]. cbn.
    destruct (es !! d) as [child|] eqn:Hd.
    + destruct (fs.open_store (p ++ [f]) child) as [child'|] eqn:Hc;
        [|discriminate].
      eapply IH; eauto.
    + destruct p; discriminate.
Qed.

End StoreFrame.

(** ** The store operations: further properties *)

Section StoreExtras.

Context (E : Env).

Lemma createEmptyStats_frame (path : string) (cols : list string)
    (name : string) (w : World) :
  path <> "" ->
  events (fst (createEmptyStats cols path name w)) = events w /\
  same_files_but (fs.split_path path) (root w)
    (root (fst (createEmptyStats cols path name w))) /\
  dirs_kept (root w) (root (fst (createEmptyStats cols path name w))).
Proof.
  intros Hne. rewrite (createEmptyStats_run _ Hne).
  destruct (fs.open_store (fs.split_path path) (root w)) as [n|e] eqn:Ho.
  - destruct (open_store_frame _ _ _ Ho) as [Hf1 Hk1].
    destruct (fs.update_store (fs.split_path path) _ n) as [n'|e] eqn:Hu;
      cbn [fst events root].
    + destruct (update_store_frame _ _ _ _ Hu) as [Hf2 Hk2].
      split; [reflexivity|].
      split; [eapply same_files_but_trans; eauto|].
      eapply dirs_kept_trans; eauto.
    + auto.
  - cbn [fst]. split; [reflexivity|].
    split; [apply same_files_but_refl|apply dirs_kept_refl].
Qed.

Lemma setupStats_frame (w : World) :
  events (fst (setupStats E w)) = events w /\
  same_files_but (fs.split_path ledger_path) (root w)
    (root (fst (setupStats E w))) /\
  dirs_kept (root w) (root (fst (setupStats E w))).
Proof.
  destruct (file_at_dec ledger_path w) as [Hf|Hnf].
  - rewrite <- ledger_is_file_eq in Hf. rewrite (setupStats_file E w Hf).
    cbn [fst]. split; [reflexivity|].
    split; [apply same_files_but_refl|apply dirs_kept_refl].
  - rewrite (setupStats_run_no_file E w Hnf).
    destruct (fs.resolve (fs.split_path config.statsDirectory) (root w)).
    + apply createEmptyStats_frame, ledger_path_nonempty.
    + destruct (fs.makedirs (fs.split_path config.statsDirectory) (root w))
        as [n|e] eqn:Hm.
      * destruct (createEmptyStats_frame ledger_path config.statsCols
                    (getStatsName (version E)) (mkWorld n (events w))
                    ledger_path_nonempty) as (Hev & Hf & Hk).
        cbn [root events] in *. split; [exact Hev|]. split.
        -- eapply same_files_but_trans; [|exact Hf].
           apply same_files_weaken. eapply makedirs_files; eauto.
        -- eapply dirs_kept_trans; [|exact Hk]. eapply makedirs_dirs; eauto.
      * cbn [fst]. split; [reflexivity|].
        split; [apply same_files_but_refl|apply dirs_kept_refl].
Qed.

Lemma file_parent_is_dir (p : list string) (f : string) (n : Node) (c : Content) :
  fs.resolve (p ++ [f]) n = Some (File c) ->
  exists es, fs.resolve p n = Some (Dir es).
Proof.
  rewrite resolve_app. destruct (fs.resolve p n) as [[?|es]|]; cbn; eauto;
    discriminate.
Qed.

(** X12. [setupStats] where no regular file is at the ledger path is all or
    nothing. Either it raises and nothing has changed, or it returns and the
    ledger file is a store without any table (the empty frame it puts
    creates none), the stats directory is a directory, no other regular
    file has changed, no directory is lost and no handler was called. *)
Theorem setupStats_all_or_nothing (w : World) :
  ~ ledger_is_file w ->
  (exists e, setupStats E w = (w, Raise e)) \/
  (exists w',
      setupStats E w = (w', Ok tt) /\
      ledger w' = Some ∅ /\
      is_dir config.statsDirectory w' /\
      same_files_but (fs.split_path ledger_path) (root w) (root w') /\
      dirs_kept (root w) (root w') /\
      events w' = events w).
Proof.
  intros Hnf. pose proof (setupStats_frame w) as (Hev & Hf & Hk).
  destruct (setupStats_no_file E w Hnf) as [He|(w' & Hw & Hl & _)];
    [now left|right].
  rewrite Hw in Hev, Hf, Hk. cbn [fst] in *.
  exists w'. split; [exact Hw|]. split; [exact Hl|]. split; [|auto].
  rewrite (ledger_eq w') in Hl. apply store_at_Some in Hl.
  rewrite ledger_path_split in Hl.
  exact (file_parent_is_dir _ _ _ _ Hl).
Qed.

(** X14. [writeStats] touches the ledger file only: whether it returns or
    raises, every other regular file is what it was, no directory is lost
    and no handler is called. *)
Theorem writeStats_touches_ledger_only (statsDf : Frame)
    (name : option string) (w : World) :
  events (fst (writeStats E statsDf name w)) = events w /\
  same_files_but (fs.split_path ledger_path) (root w)
    (root (fst (writeStats E statsDf name w))) /\
  dirs_kept (root w) (root (fst (writeStats E statsDf name w))).
Proof.
  destruct (ledger w) as [t|] eqn:Hl.
  - rewrite (writeStats_run E w t statsDf name Hl).
    destruct (fs.update_store (fs.split_path ledger_path) _ (root w))
      as [n|e] eqn:Hu; cbn [fst events root].
    + destruct (update_store_frame _ _ _ _ Hu) as [Hf Hk]. auto.
    + split; [reflexivity|].
      split; [apply same_files_but_refl|apply dirs_kept_refl].
  - destruct (writeStats_no_store E w statsDf name Hl) as [e ->]. cbn [fst].
    split; [reflexivity|].
    split; [apply same_files_but_refl|apply dirs_kept_refl].
Qed.

(** X13. [loadStats] only reads: it never changes the world, and in
    particular never creates the file it is asked for. It gives [None] where
    no regular file is at the path (and for the empty path), the open store
    where a store is there, and raises where the regular file is not a
    store. *)
Theorem loadStats_reads_only (path : string) (w : World) :
  fst (loadStats path w) = w /\
  (~ file_at path w -> loadStats path w = (w, Ok None)) /\
  (path = "" -> loadStats path w = (w, Ok None)) /\
  (path <> "" -> forall t,
      store_at path w = Some t ->
      loadStats path w = (w, Ok (Some (mkHDFStore path)))) /\
  (path <> "" ->
   fs.resolve (fs.split_path path) (root w) = Some (File Raw) ->
   exists e, loadStats path w = (w, Raise e)).
Proof.
  destruct (decide (path = "")) as [->|Hne].
  - repeat split; try reflexivity; congruence.
  - split; [apply (loadStats_world _ Hne)|].
    split; [apply (loadStats_no_file _ _ Hne)|]. split; [congruence|].
    split; [intros _; apply (loadStats_store _ Hne)|].
    intros _ Hr.
    assert (Hs : store_at path w = None) by (unfold store_at; now rewrite Hr).
    destruct (loadStats_no_store _ Hne w Hs) as [H|H]; [|exact H].
    exfalso. unfold loadStats, bind in H. rewrite (isfile_at _ Hne), Hr in H.
    rewrite (open_at _ Hne) in H.
    destruct (open_store_not_store (fs.split_path path) (root w)
                (File Raw) Hr) as [e He]; [discriminate|].
    rewrite He in H. discriminate.
Qed.

End StoreExtras.

(** ** The statistics stages: further properties *)

Section StageExtras.

Context (E : Env).

Lemma widest_bound (data : list (list Cell)) (r : list Cell) :
  r ∈ data -> (length r <= foldr Nat.max 0%nat (map length data))%nat.
Proof.
  induction data as [|r' data IH]; intros Hr; [inversion Hr|].
  cbn. apply elem_of_cons in Hr as [->|Hr]; [lia|].
  specialize (IH Hr). lia.
Qed.


Lemma from_records_inv (data : list (list Cell)) (cols : list string)
    (df : Frame) :
  pd.from_records data cols = Ok df ->
  df = mkFrame cols (map (pd.pad (length cols)) data) /\
  Forall (fun r => (length r <= length cols)%nat) data.
Proof.
  unfold pd.from_records. destruct data as [|r data].
  - intros [= <-]. split; [reflexivity|constructor].
  - cbv zeta.
    pose proof (widest_bound (r :: data)) as Hw.
    remember (foldr Nat.max 0%nat (map length (r :: data))) as k eqn:Ek.
    destruct (Nat.eqb_spec k (length cols)) as [Hk|_]; [|discriminate].
    intros [= <-]. rewrite Hk. split; [reflexivity|].
    apply Forall_forall. intros r' Hr'. rewrite <- Hk.
    now apply Hw.
Qed.


Lemma generateStatsDataFrame_columns (stats : list (list Cell)) (df : Frame) :
  generateStatsDataFrame stats = Ok df -> columns df = config.statsCols.
Proof. now intros [-> _]%from_records_inv. Qed.


Lemma writeStats_ok_inv (df : Frame) (name : option string) (w w' : World) :
  writeStats E df name w = (w', Ok tt) ->
  exists t t', ledger w = Some t /\
               pd.append (stats_key E name) df t = Ok t' /\
               ledger w' = Some t' /\ events w' = events w.
Proof.
  intros H. destruct (ledger w) as [t|] eqn:Hl.
  - pose proof (writeStats_store E w t df name Hl) as Hs.
    destruct (pd.append (stats_key E name) df t) as [t'|e] eqn:Ha.
    + destruct Hs as (w1 & Hw1 & Hl1 & Hev1 & _).
      rewrite Hw1 in H. injection H as <-. exists t, t'. auto.
    + rewrite Hs in H. discriminate.
  - destruct (writeStats_no_store E w df name Hl) as [e He].
    rewrite He in H. discriminate.
Qed.

(** A statistics stage, whichever handler it calls: provision the
    directory, call the handler, shape the records, write them. *)
Lemma stage_inv (d : string) (ev : Event) (answer : Res (list (list Cell)))
    (w w' : World) (res : Res unit) :
  (checkDirectory d ;;
   stats <- (log ev ;; lift answer) ;;
   statsDf <- lift (generateStatsDataFrame stats) ;;
   writeStats E statsDf None) w = (w', res) ->
  match res with
  | Ok _ =>
      exists records df t t',
        answer = Ok records /\
        generateStatsDataFrame records = Ok df /\
        ledger w = Some t /\
        pd.append (getStatsName (version E)) df t = Ok t' /\
        ledger w' = Some t' /\
        events w' = events w ++ [ev]
  | Raise _ => ledger w' = ledger w
  end.
Proof.
  unfold bind at 1.
  destruct (checkDirectory_any d w) as (Hev1 & Hf1 & _).
  destruct (checkDirectory d w) as [w1 [[]|e1]]; cbn [fst] in *.
  - unfold bind at 1, bind at 1, log, lift.
    pose proof (ledger_after_log w w1 ev Hf1) as Hl2.
    set (w2 := mkWorld (root w1) (events w1 ++ [ev])) in *.
    destruct answer as [records|e2].
    + unfold bind at 1.
      destruct (generateStatsDataFrame records) as [df|e3] eqn:Hdf.
      * intros Hw. destruct res as [[]|e4].
        -- apply writeStats_ok_inv in Hw as (t & t' & Hl & Ha & Hl' & Hev').
           exists records, df, t, t'. cbn [stats_key] in Ha.
           split; [reflexivity|]. split; [exact Hdf|].
           split; [congruence|]. split; [exact Ha|]. split; [exact Hl'|].
           rewrite Hev'. unfold w2. cbn [events]. now rewrite Hev1.
        -- apply writeStats_raise_world in Hw as ->. exact Hl2.
      * intros [= <- <-]. exact Hl2.
    + intros [= <- <-]. exact Hl2.
  - intros [= <- <-]. rewrite (ledger_eq w), (ledger_eq w1).
    now apply store_at_files.
Qed.

Lemma ontologiesImport_stage (importDirectory : string)
    (ontologies : option (list string)) :
  ontologiesImport E importDirectory ontologies =
  (checkDirectory (os_path.join importDirectory (ontologiesImportDir E)) ;;
   stats <- (log (OntologiesHandler
                    (os_path.join importDirectory (ontologiesImportDir E))
                    ontologies) ;;
             lift (oh_generateGraphFiles E
                     (os_path.join importDirectory (ontologiesImportDir E))
                     ontologies)) ;;
   statsDf <- lift (generateStatsDataFrame stats) ;;
   writeStats E statsDf None).
Proof. reflexivity. Qed.

Lemma databasesImport_stage (importDirectory : string)
    (databases : option (list string)) (n_jobs : Z) :
  databasesImport E importDirectory databases n_jobs =
  (checkDirectory (os_path.join importDirectory (databasesImportDir E)) ;;
   stats <- (log (DatabasesHandler
                    (os_path.join importDirectory (databasesImportDir E))
                    databases n_jobs) ;;
             lift (dh_generateGraphFiles E
                     (os_path.join importDirectory (databasesImportDir E))
                     databases n_jobs)) ;;
   statsDf <- lift (generateStatsDataFrame stats) ;;
   writeStats E statsDf None).
Proof. reflexivity. Qed.



End StageExtras.

(** ** [fullImport], for any installation *)

Section FullImportExtras.

Context (E : Env).

Lemma ledger_files (w w' : World) :
  same_files (root w) (root w') -> ledger w' = ledger w.
Proof.
  intros Hf. rewrite (ledger_eq w), (ledger_eq w'). now apply store_at_files.
Qed.

(** The ledger [setupStats] leaves when it returns: the store that was
    there, or a store without tables where there was no ledger. *)
Lemma setupStats_ok_ledger (w w' : World) (t : gmap string Frame) :
  setupStats E w = (w', Ok tt) ->
  ledger w' = Some t ->
  t = default ∅ (ledger w) /\ events w' = events w.
Proof.
  intros Hs Hl. destruct (file_at_dec ledger_path w) as [Hf|Hnf].
  - rewrite <- ledger_is_file_eq in Hf. rewrite (setupStats_file E w Hf) in Hs.
    injection Hs as <-. rewrite Hl. auto.
  - pose proof (store_at_no_file _ _ Hnf) as Hnone.
    rewrite <- (ledger_eq w) in Hnone. rewrite <- ledger_is_file_eq in Hnf.
    destruct (setupStats_no_file E w Hnf) as [[e He]|(w1 & Hw1 & Hl1 & Hev1)].
    + rewrite He in Hs. discriminate.
    + rewrite Hw1 in Hs. injection Hs as <-. rewrite Hnone. cbn [default].
      split; [congruence|exact Hev1].
Qed.

Lemma fullImport_unfold (sched : list nat) :
  fullImport E sched =
  (checkDirectory config.importDirectory ;;
   setupStats E ;;
   ontologiesImport E config.importDirectory None ;;
   print_elapsed ;;
   databasesImport E config.importDirectory None 4 ;;
   print_elapsed ;;
   experimentsImport E (PStr config.importDirectory) 4 sched ;;
   print_elapsed).
Proof. reflexivity. Qed.

Lemma bind_ok_inv {A B : Type} (m : M A) (k : A -> M B) (w w' : World)
    (b : B) :
  bind m k w = (w', Ok b) ->
  exists w1 a, m w = (w1, Ok a) /\ k a w1 = (w', Ok b).
Proof.
  unfold bind. destruct (m w) as [w1 [a|e]]; [eauto|discriminate].
Qed.

Lemma print_elapsed_inv (w w' : World) (r : Res unit) :
  print_elapsed w = (w', r) ->
  w' = mkWorld (root w) (events w ++ [ElapsedPrinted]).
Proof. unfold print_elapsed, log. now intros [= <- _]. Qed.

(** What the stages of [fullImport] have done when they all return, over
    any import directory. *)
Lemma stages_ok_inv (importDirectory : string) (sched : list nat)
    (w w' : World) :
  (checkDirectory importDirectory ;;
   setupStats E ;;
   ontologiesImport E importDirectory None ;;
   print_elapsed ;;
   databasesImport E importDirectory None 4 ;;
   print_elapsed ;;
   experimentsImport E (PStr importDirectory) 4 sched ;;
   print_elapsed) w = (w', Ok tt) ->
  exists recordsO recordsD dfO dfD t1 t2 evs,
    oh_generateGraphFiles E
      (os_path.join importDirectory (ontologiesImportDir E)) None
      = Ok recordsO /\
    dh_generateGraphFiles E
      (os_path.join importDirectory (databasesImportDir E)) None 4
      = Ok recordsD /\
    generateStatsDataFrame recordsO = Ok dfO /\
    generateStatsDataFrame recordsD = Ok dfD /\
    pd.append (getStatsName (version E)) dfO (default ∅ (ledger w)) = Ok t1 /\
    pd.append (getStatsName (version E)) dfD t1 = Ok t2 /\
    ledger w' = Some t2 /\
    Forall is_experiments_event evs /\
    events w' =
      events w ++
      [OntologiesHandler
         (os_path.join importDirectory (ontologiesImportDir E)) None;
       ElapsedPrinted;
       DatabasesHandler
         (os_path.join importDirectory (databasesImportDir E)) None 4;
       ElapsedPrinted] ++ evs ++ [ElapsedPrinted].
Proof.
  intros H.
  apply bind_ok_inv in H as (w1 & [] & Hc & H). cbv beta in H.
  apply bind_ok_inv in H as (w2 & [] & Hs & H). cbv beta in H.
  apply bind_ok_inv in H as (w3 & [] & Ho & H). cbv beta in H.
  apply bind_ok_inv in H as (w4 & [] & Hp4 & H). cbv beta in H.
  apply bind_ok_inv in H as (w5 & [] & Hd & H). cbv beta in H.
  apply bind_ok_inv in H as (w6 & [] & Hp6 & H). cbv beta in H.
  apply bind_ok_inv in H as (w7 & [] & He & H). cbv beta in H.
  apply print_elapsed_inv in Hp4 as ->.
  apply print_elapsed_inv in Hp6 as ->.
  apply print_elapsed_inv in H as ->.
  destruct (checkDirectory_any importDirectory w) as (Hev1 & Hf1 & _).
  rewrite Hc in Hev1, Hf1. cbn [fst] in Hev1, Hf1.
  destruct (experimentsImport_keeps_files E (PStr importDirectory) 4 sched
              (mkWorld (root w5) (events w5 ++ [ElapsedPrinted])))
    as (Hf7 & evs & Hev7 & Hall).
  rewrite He in Hf7, Hev7. cbn [fst root events] in Hf7, Hev7.
  rewrite ontologiesImport_stage in Ho. apply stage_inv in Ho.
  destruct Ho as (recordsO & dfO & t & t1 & HO & HdfO & Hl2 & Ha1 & Hl3 & Hev3).
  rewrite databasesImport_stage in Hd. apply stage_inv in Hd.
  destruct Hd as (recordsD & dfD & t1' & t2 & HD & HdfD & Hl4 & Ha2 & Hl5 & Hev5).
  cbn [events] in Hev5.
  rewrite (ledger_after_log w3 w3 ElapsedPrinted (same_files_refl _)) in Hl4.
  assert (t1' = t1) as -> by congruence.
  destruct (setupStats_ok_ledger w1 w2 t Hs Hl2) as [Ht Hev2].
  rewrite (ledger_files w w1 Hf1) in Ht. subst t.
  exists recordsO, recordsD, dfO, dfD, t1, t2, evs.
  split; [exact HO|]. split; [exact HD|]. split; [exact HdfO|].
  split; [exact HdfD|]. split; [exact Ha1|]. split; [exact Ha2|].
  split.
  - rewrite (ledger_after_log w5 w7 ElapsedPrinted).
    + exact Hl5.
    + exact Hf7.
  - split; [exact Hall|]. cbn [events].
    rewrite Hev7, Hev5, Hev3, Hev2, Hev1.
    rewrite <- !app_assoc. reflexivity.
Qed.

(** What a [fullImport] that returns has done. *)
Lemma fullImport_ok_inv (sched : list nat) (w w' : World) :
  fullImport E sched w = (w', Ok tt) ->
  exists recordsO recordsD dfO dfD t1 t2 evs,
    oh_generateGraphFiles E
      (os_path.join config.importDirectory (ontologiesImportDir E)) None
      = Ok recordsO /\
    dh_generateGraphFiles E
      (os_path.join config.importDirectory (databasesImportDir E)) None 4
      = Ok recordsD /\
    generateStatsDataFrame recordsO = Ok dfO /\
    generateStatsDataFrame recordsD = Ok dfD /\
    pd.append (getStatsName (version E)) dfO (default ∅ (ledger w)) = Ok t1 /\
    pd.append (getStatsName (version E)) dfD t1 = Ok t2 /\
    ledger w' = Some t2 /\
    Forall is_experiments_event evs /\
    events w' =
      events w ++
      [OntologiesHandler
         (os_path.join config.importDirectory (ontologiesImportDir E)) None;
       ElapsedPrinted;
       DatabasesHandler
         (os_path.join config.importDirectory (databasesImportDir E)) None 4;
       ElapsedPrinted] ++ evs ++ [ElapsedPrinted].
Proof.
  rewrite (fullImport_unfold sched).
  exact (stages_ok_inv config.importDirectory sched w w').
Qed.

(** X8. The order of a complete import. When [fullImport] returns, what it
    has added to the log is, in this order: one call of the ontologies
    handler with no selection, a printed elapsed time, one call of the
    databases handler with no selection and four jobs, a printed elapsed
    time, calls of the experiments handler only, and a last printed elapsed
    time. Each statistics handler is called exactly once, before any
    experiments handler. *)
Theorem fullImport_event_order (sched : list nat) (w w' : World) :
  fullImport E sched w = (w', Ok tt) ->
  exists evs,
    Forall is_experiments_event evs /\
    events w' =
      events w ++
      [OntologiesHandler
         (os_path.join config.importDirectory (ontologiesImportDir E)) None;
       ElapsedPrinted;
       DatabasesHandler
         (os_path.join config.importDirectory (databasesImportDir E)) None 4;
       ElapsedPrinted] ++ evs ++ [ElapsedPrinted].
Proof.
  intros H. apply fullImport_ok_inv in H.
  destruct H as (_ & _ & _ & _ & _ & _ & evs & _ & _ & _ & _ & _ & _ & _ & Hall & Hev).
  exists evs. auto.
Qed.


End FullImportExtras.

(** ** [getStatsName]: which versions share a key *)

Section StatsNameExtras.

Lemma getStatsName_chars (version : string) :
  getStatsName version =
  "stats_" +:+
  string_of_list_ascii (map dot_to_underscore (list_ascii_of_string version)).
Proof.
  unfold getStatsName, py.replace. now rewrite replace_from_dot.
Qed.

Lemma stats_prefix (s : string) :
  "stats_" +:+ s =
  String "s" (String "t" (String "a" (String "t" (String "s" (String "_" s))))).
Proof. reflexivity. Qed.

Lemma string_of_list_ascii_inj (l1 l2 : list ascii) :
  string_of_list_ascii l1 = string_of_list_ascii l2 -> l1 = l2.
Proof.
  intros H. rewrite <- (list_ascii_of_string_of_list_ascii l1),
              <- (list_ascii_of_string_of_list_ascii l2).
  now rewrite H.
Qed.

Lemma list_ascii_of_string_inj (s1 s2 : string) :
  list_ascii_of_string s1 = list_ascii_of_string s2 -> s1 = s2.
Proof.
  intros H. rewrite <- (string_of_list_ascii_of_string s1),
              <- (string_of_list_ascii_of_string s2).
  now rewrite H.
Qed.

Lemma dot_to_underscore_no_dot (c : ascii) : dot_to_underscore c <> "."%char.
Proof.
  unfold dot_to_underscore. destruct (Ascii.eqb_spec c "."); congruence.
Qed.

Lemma dot_to_underscore_inj (c1 c2 : ascii) :
  c1 <> "_"%char -> c2 <> "_"%char ->
  dot_to_underscore c1 = dot_to_underscore c2 -> c1 = c2.
Proof.
  unfold dot_to_underscore.
  destruct (Ascii.eqb_spec c1 "."), (Ascii.eqb_spec c2 "."); congruence.
Qed.

(** X15. The key never has a dot, and two versions share a key exactly when
    they are equal up to writing [_] for [.]: the collisions of
    [getStatsName] are those of the dot replacement and no others. *)
Theorem getStatsName_collisions (v1 v2 : string) :
  ("."%char ∉ list_ascii_of_string (getStatsName v1)) /\
  (getStatsName v1 = getStatsName v2 <->
   map dot_to_underscore (list_ascii_of_string v1) =
   map dot_to_underscore (list_ascii_of_string v2)).
Proof.
  split.
  - rewrite getStatsName_chars, stats_prefix. cbn [list_ascii_of_string].
    rewrite list_ascii_of_string_of_list_ascii.
    repeat (apply not_elem_of_cons; split; [discriminate|]).
    intros (c & Hc & _)%elem_of_map. symmetry in Hc.
    now apply dot_to_underscore_no_dot in Hc.
  - rewrite !getStatsName_chars, !stats_prefix. split.
    + intros [= H]. now apply string_of_list_ascii_inj.
    + now intros ->.
Qed.

(** X16. On versions that have no underscore [getStatsName] is injective:
    such versions never share a table of the ledger. *)
Theorem getStatsName_injective_without_underscore (v1 v2 : string) :
  ("_"%char ∉ list_ascii_of_string v1) ->
  ("_"%char ∉ list_ascii_of_string v2) ->
  getStatsName v1 = getStatsName v2 -> v1 = v2.
Proof.
  intros H1 H2. rewrite !getStatsName_chars, !stats_prefix.
  intros [= H%string_of_list_ascii_inj]. apply list_ascii_of_string_inj.
  revert H1 H2 H. generalize (list_ascii_of_string v1) as l1.
  generalize (list_ascii_of_string v2) as l2.
  intros l2 l1. revert l2.
  induction l1 as [|c1 l1 IH]; intros [|c2 l2] H1 H2 H; try discriminate;
    [reflexivity|].
  apply not_elem_of_cons in H1 as [Hc1 H1].
  apply not_elem_of_cons in H2 as [Hc2 H2].
  injection H as Hc H. f_equal.
  - apply dot_to_underscore_inj; congruence.
  - now apply IH.
Qed.

End StatsNameExtras.

(** ** Failures: what a raising handler stops *)

Section Failures.

Context (E : Env).

Lemma bind_eq {A B : Type} (m : M A) (k : A -> M B) (w : World) :
  bind m k w =
  match m w with
  | (w', Ok a) => k a w'
  | (w', Raise e) => (w', Raise e)
  end.
Proof. reflexivity. Qed.

Lemma print_elapsed_eq (w : World) :
  print_elapsed w = (mkWorld (root w) (events w ++ [ElapsedPrinted]), Ok tt).
Proof. reflexivity. Qed.

(** The steps of a task list, cut at the handler call of a given pair. *)
Lemma steps_split (l : list Step) (pr : string * string)
    (post : list (string * string)) :
  forall pre : list (string * string),
    flat_map step_events l = map pair_event (pre ++ pr :: post) ->
    exists spre spost,
      l = spre ++ GenerateDatasetImports (fst pr) (snd pr) :: spost /\
      flat_map step_events spre = map pair_event pre.
Proof.
  induction l as [|s l IH]; intros pre H.
  - destruct pre; discriminate.
  - destruct s as [d|p' d'].
    + cbn [flat_map step_events app] in H.
      destruct (IH pre H) as (spre & spost & -> & Hs).
      exists (CheckDirectory d :: spre), spost. split; [reflexivity|].
      exact Hs.
    + cbn [flat_map step_events app] in H. destruct pre as [|q pre].
      * cbn [app map] in H. injection H as Hp Hd _.
        exists [], l. split; [|reflexivity]. cbn [app]. now rewrite Hp, Hd.
      * cbn [app map] in H. injection H as Hp Hd H.
        destruct (IH pre H) as (spre & spost & -> & Hs).
        exists (GenerateDatasetImports p' d' :: spre), spost.
        split; [reflexivity|]. cbn [flat_map step_events app map].
        rewrite Hs. f_equal. unfold pair_event. now rewrite Hp, Hd.
Qed.

(** With one worker, the first step that raises ends the pool: the steps
    before it have run in order, none after it. *)
Lemma pool_serial_fail (fuel : nat) :
  forall (sched : list nat) (tasks : list (list Step)) (w : World)
         (spre spost : list Step) (p d : string) (e : Exn),
    (total_steps tasks <= fuel)%nat ->
    concat tasks = spre ++ GenerateDatasetImports p d :: spost ->
    (forall s, s ∈ spre -> ready E w s) ->
    eh_generateDatasetImports E p d = Raise e ->
    exists w', pool E fuel 1 sched tasks w = (w', Raise e) /\
               events w' =
                 events w ++ flat_map step_events spre ++
                 [ExperimentsHandler p d] /\
               same_files (root w) (root w').
Proof.
  induction fuel as [|fuel IH];
    intros sched tasks w spre spost p d e Hfuel Hsplit Hready He.
  - unfold total_steps in Hfuel. rewrite Hsplit, length_app in Hfuel.
    cbn in Hfuel. lia.
  - rewrite pool_S. cbv zeta.
    pose proof (concat_pending tasks) as Hcat.
    pose proof (pending_unfinished tasks 0) as Hun.
    destruct (filter (fun t => unfinished t = true) tasks) as [|t0 pend].
    { cbn in Hcat. rewrite <- Hcat in Hsplit. destruct spre; discriminate. }
    assert (Hi : (if (hd O sched <? length (take 1 (t0 :: pend)))%nat
                  then hd O sched else O) = O).
    { cbn. destruct (hd O sched) as [|[|c]]; reflexivity. }
    rewrite Hi. cbn [lookup list_lookup].
    destruct (Hun t0 eq_refl) as (s & rest & ->).
    cbn [concat app] in Hcat. unfold total_steps in Hfuel.
    rewrite <- Hcat in Hsplit, Hfuel.
    destruct spre as [|s0 spre]; cbn [app] in Hsplit;
      injection Hsplit as -> Hrest.
    + rewrite bind_eq. unfold perform, call_eh. rewrite bind_eq.
      unfold log at 1, lift. rewrite He.
      eexists. split; [reflexivity|]. cbn [events root flat_map app].
      split; [reflexivity|apply same_files_refl].
    + destruct (perform_ready E s0 w (Hready s0 (list_elem_of_here _ _)))
        as (w1 & Hp & Hf1 & _ & Hev1 & _).
      rewrite bind_eq, Hp.
      destruct (IH (tl sched) (rest :: pend) w1 spre spost p d e)
        as (w' & Hw' & Hev' & Hf').
      * unfold total_steps. cbn [concat]. cbn [length] in Hfuel. lia.
      * exact Hrest.
      * intros s' Hs'. apply (ready_files E s' w w1 Hf1). apply Hready.
        now apply list_elem_of_further.
      * exact He.
      * exists w'. split; [exact Hw'|]. split.
        -- rewrite Hev', Hev1. cbn [flat_map]. now rewrite <- !app_assoc.
        -- eapply same_files_trans; eauto.
Qed.

(** X5. A failing experiments handler ends a serial import. With
    [n_jobs = 1], where the directories can be provisioned: if the handler
    raises on a (project, dataset) pair and has taken every pair listed
    before it, [experimentsImport] raises that very exception, the handler
    has been called on the pairs up to and including the failing one, in
    order, and on no pair after it; the ledger is what it was. *)
Theorem experimentsImport_serial_failure (projects : Projects)
    (sched : list nat) (w : World) (pre post : list (string * string))
    (p d : string) (e : Exn) :
  provisionable (experimentsImportDirectory E) w ->
  (forall project,
      project ∈ resolved_projects E projects ->
      provisionable (os_path.join (experimentsImportDirectory E) project) w /\
      forall dataset,
        dataset ∈ listDirectoryFolders E
                    (os_path.join (experimentsDir E) project) ->
        provisionable
          (os_path.join (os_path.join (experimentsImportDirectory E) project)
             dataset) w) ->
  project_pairs E (resolved_projects E projects) = pre ++ (p, d) :: post ->
  (forall pair,
      pair ∈ pre -> eh_generateDatasetImports E (fst pair) (snd pair) = Ok tt) ->
  eh_generateDatasetImports E p d = Raise e ->
  exists w',
    experimentsImport E projects 1 sched w = (w', Raise e) /\
    events w' = events w ++ map pair_event pre ++ [ExperimentsHandler p d] /\
    ledger w' = ledger w.
Proof.
  intros Hroot Hall Hpairs Hpre He.
  destruct (checkDirectory_ok _ _ Hroot) as (w0 & Hc & Hev0 & Hf0 & _).
  set (tasks := map (experimentImport E (experimentsImportDirectory E)
                       (experimentsDir E))
                  (resolved_projects E projects)).
  assert (Hevents : flat_map step_events (concat tasks)
                    = map pair_event (pre ++ (p, d) :: post)).
  { unfold tasks. now rewrite tasks_events, <- project_pairs_events, Hpairs. }
  destruct (steps_split _ _ _ _ Hevents) as (spre & spost & Hsplit & Hspre).
  cbn [fst snd] in Hsplit.
  destruct (pool_serial_fail (total_steps tasks) sched tasks w0 spre spost
              p d e) as (w' & Hw' & Hev' & Hf'); [lia|exact Hsplit| |exact He|].
  { intros s Hs. apply (ready_files E s w w0 Hf0).
    assert (Hin : s ∈ concat tasks).
    { rewrite Hsplit. apply elem_of_app. now left. }
    destruct s as [dir|p' d']; cbn [ready].
    - apply elem_of_concat in Hin as (task & Hin & Htask).
      apply elem_of_map in Htask as (project & -> & Hproject).
      destruct (Hall project Hproject) as [Hp Hds].
      apply experimentImport_steps in Hin as [[= ->]|(ds & Hd & [[= ->]|[=]])];
        [exact Hp|exact (Hds ds Hd)].
    - assert (Hev : ExperimentsHandler p' d' ∈ map pair_event pre).
      { rewrite <- Hspre. apply list_elem_of_In, in_flat_map.
        exists (GenerateDatasetImports p' d').
        split; [now apply list_elem_of_In|left; reflexivity]. }
      apply elem_of_map in Hev as ([p'' d''] & [= -> ->] & Hpair).
      exact (Hpre _ Hpair). }
  exists w'. split.
  { rewrite experimentsImport_unfold, bind_eq, Hc. unfold Parallel.
    rewrite bind_eq. exact Hw'. }
  split.
  - now rewrite Hev', Hev0, Hspre.
  - rewrite (ledger_eq w), (ledger_eq w'). apply store_at_files.
    eapply same_files_trans; eauto.
Qed.

Lemma writeStats_events (df : Frame) (name : option string) (w w' : World)
    (res : Res unit) :
  writeStats E df name w = (w', res) -> events w' = events w.
Proof.
  destruct res as [[]|e]; intros H.
  - apply writeStats_ok_inv in H as (_ & _ & _ & _ & _ & Hev). exact Hev.
  - now apply writeStats_raise_world in H as ->.
Qed.

(** A statistics stage calls its handler at most once, and raises when the
    handler does. *)
Lemma stage_outcome (d : string) (ev : Event) (answer : Res (list (list Cell)))
    (w w' : World) (res : Res unit) :
  (checkDirectory d ;;
   stats <- (log ev ;; lift answer) ;;
   statsDf <- lift (generateStatsDataFrame stats) ;;
   writeStats E statsDf None) w = (w', res) ->
  (events w' = events w \/ events w' = events w ++ [ev]) /\
  (forall e, answer = Raise e -> exists e', res = Raise e').
Proof.
  rewrite bind_eq.
  destruct (checkDirectory_any d w) as (Hev1 & _).
  destruct (checkDirectory d w) as [w1 [[]|e1]]; cbn [fst] in Hev1.
  - rewrite bind_eq, bind_eq. unfold log at 1, lift at 1.
    destruct answer as [records|e2].
    + rewrite bind_eq. unfold lift at 1.
      destruct (generateStatsDataFrame records) as [df|e3].
      * intros Hw%writeStats_events. cbn [events] in Hw.
        split; [right; congruence|discriminate].
      * intros [= <- <-]. cbn [events].
        split; [right; congruence|discriminate].
    + intros [= <- <-]. cbn [events]. split; [right; congruence|eauto].
  - intros [= <- <-]. split; [left; exact Hev1|eauto].
Qed.

Lemma setupStats_row_count (w : World) :
  row_count (fst (setupStats E w)) = row_count w.
Proof.
  destruct (file_at_dec ledger_path w) as [Hf|Hnf].
  - rewrite <- ledger_is_file_eq in Hf. now rewrite (setupStats_file E w Hf).
  - pose proof (store_at_no_file _ _ Hnf) as Hnone.
    rewrite <- (ledger_eq w) in Hnone. rewrite <- ledger_is_file_eq in Hnf.
    destruct (setupStats_no_file E w Hnf) as [[e ->]|(w1 & -> & Hl1 & _)];
      [reflexivity|].
    cbn [fst]. unfold row_count. rewrite Hl1, Hnone. apply map_fold_empty.
Qed.

(** The stages of [fullImport] over any import directory, when the
    ontologies handler raises. *)
Lemma stages_ontologies_failure (importDirectory : string) (sched : list nat)
    (w : World) (e : Exn) :
  oh_generateGraphFiles E
    (os_path.join importDirectory (ontologiesImportDir E)) None = Raise e ->
  exists w' e' evs,
    (checkDirectory importDirectory ;;
     setupStats E ;;
     ontologiesImport E importDirectory None ;;
     print_elapsed ;;
     databasesImport E importDirectory None 4 ;;
     print_elapsed ;;
     experimentsImport E (PStr importDirectory) 4 sched ;;
     print_elapsed) w = (w', Raise e') /\
    events w' = events w ++ evs /\
    (evs = [] \/
     evs = [OntologiesHandler
              (os_path.join importDirectory (ontologiesImportDir E)) None]) /\
    row_count w' = row_count w.
Proof.
  intros Hoh. rewrite bind_eq.
  destruct (checkDirectory_any importDirectory w) as (Hev1 & Hf1 & _).
  destruct (checkDirectory importDirectory w) as [w1 [[]|e1]];
    cbn [fst] in Hev1, Hf1.
  - assert (Hr1 : row_count w1 = row_count w).
    { apply row_count_ledger. rewrite (ledger_eq w), (ledger_eq w1).
      now apply store_at_files. }
    rewrite bind_eq.
    destruct (setupStats_frame E w1) as (Hev2 & _).
    pose proof (setupStats_row_count w1) as Hr2.
    destruct (setupStats E w1) as [w2 [[]|e2]]; cbn [fst] in Hev2, Hr2.
    + rewrite bind_eq.
      destruct (ontologiesImport E importDirectory None w2)
        as [w3 res] eqn:Ho.
      rewrite ontologiesImport_stage in Ho.
      destruct (stage_outcome _ _ _ _ _ _ Ho) as [Hev3 Hres].
      destruct (Hres e Hoh) as [e3 ->].
      apply stage_inv in Ho.
      exists w3, e3. destruct Hev3 as [Hev3|Hev3].
      * exists []. split; [reflexivity|]. rewrite app_nil_r.
        split; [congruence|]. split; [now left|].
        rewrite (row_count_ledger w2 w3 Ho). congruence.
      * eexists. split; [reflexivity|].
        split; [rewrite Hev3, Hev2, Hev1; reflexivity|].
        split; [now right|].
        rewrite (row_count_ledger w2 w3 Ho). congruence.
    + exists w2, e2, []. split; [reflexivity|]. rewrite app_nil_r.
      split; [congruence|]. split; [now left|congruence].
  - exists w1, e1, []. split; [reflexivity|]. rewrite app_nil_r.
    split; [exact Hev1|]. split; [now left|].
    apply row_count_ledger. rewrite (ledger_eq w), (ledger_eq w1).
    now apply store_at_files.
Qed.

(** The same, when the databases handler raises. *)
Lemma stages_databases_failure (importDirectory : string) (sched : list nat)
    (w : World) (e : Exn) :
  dh_generateGraphFiles E
    (os_path.join importDirectory (databasesImportDir E)) None 4 = Raise e ->
  exists w' e' evs,
    (checkDirectory importDirectory ;;
     setupStats E ;;
     ontologiesImport E importDirectory None ;;
     print_elapsed ;;
     databasesImport E importDirectory None 4 ;;
     print_elapsed ;;
     experimentsImport E (PStr importDirectory) 4 sched ;;
     print_elapsed) w = (w', Raise e') /\
    events w' = events w ++ evs /\
    (evs = [] \/
     evs = [OntologiesHandler
              (os_path.join importDirectory (ontologiesImportDir E)) None] \/
     evs = [OntologiesHandler
              (os_path.join importDirectory (ontologiesImportDir E)) None;
            ElapsedPrinted] \/
     evs = [OntologiesHandler
              (os_path.join importDirectory (ontologiesImportDir E)) None;
            ElapsedPrinted;
            DatabasesHandler
              (os_path.join importDirectory (databasesImportDir E)) None 4]).
Proof.
  intros Hdh. rewrite bind_eq.
  destruct (checkDirectory_any importDirectory w) as (Hev1 & _).
  destruct (checkDirectory importDirectory w) as [w1 [[]|e1]];
    cbn [fst] in Hev1.
  - rewrite bind_eq.
    destruct (setupStats_frame E w1) as (Hev2 & _).
    destruct (setupStats E w1) as [w2 [[]|e2]]; cbn [fst] in Hev2.
    + rewrite bind_eq.
      destruct (ontologiesImport E importDirectory None w2)
        as [w3 res] eqn:Ho.
      rewrite ontologiesImport_stage in Ho.
      destruct (stage_outcome _ _ _ _ _ _ Ho) as [Hev3 _].
      destruct res as [[]|e3].
      * apply stage_inv in Ho.
        destruct Ho as (_ & _ & _ & _ & _ & _ & _ & _ & _ & Hev3').
        rewrite bind_eq, print_elapsed_eq, bind_eq.
        destruct (databasesImport E importDirectory None 4
                    (mkWorld (root w3) (events w3 ++ [ElapsedPrinted])))
          as [w5 res] eqn:Hd.
        rewrite databasesImport_stage in Hd.
        destruct (stage_outcome _ _ _ _ _ _ Hd) as [Hev5 Hres].
        destruct (Hres e Hdh) as [e5 ->]. cbn [events] in Hev5.
        exists w5, e5. destruct Hev5 as [Hev5|Hev5].
        -- eexists. split; [reflexivity|].
           split; [rewrite Hev5, Hev3', Hev2, Hev1, <- app_assoc; reflexivity|].
           right; right; left. reflexivity.
        -- eexists. split; [reflexivity|].
           split; [rewrite Hev5, Hev3', Hev2, Hev1, <- !app_assoc; reflexivity|].
           right; right; right. reflexivity.
      * exists w3, e3. destruct Hev3 as [Hev3|Hev3].
        -- exists []. split; [reflexivity|]. rewrite app_nil_r.
           split; [congruence|now left].
        -- eexists. split; [reflexivity|].
           split; [rewrite Hev3, Hev2, Hev1; reflexivity|].
           right; left. reflexivity.
    + exists w2, e2, []. split; [reflexivity|]. rewrite app_nil_r.
      split; [congruence|now left].
  - exists w1, e1, []. split; [reflexivity|]. rewrite app_nil_r.
    split; [exact Hev1|now left].
Qed.

(** X10. A failing statistics handler ends [fullImport]. Where the
    ontologies handler raises, [fullImport] raises, has called no other
    handler and has added no row to the ledger. Where the databases handler
    raises, [fullImport] raises and has never called the experiments
    handler: the log has grown by a prefix of ontologies call, elapsed time,
    databases call. *)
Theorem fullImport_stops_at_failed_stage (sched : list nat) (w : World) :
  (forall e,
      oh_generateGraphFiles E
        (os_path.join config.importDirectory (ontologiesImportDir E)) None
        = Raise e ->
      exists w' e' evs,
        fullImport E sched w = (w', Raise e') /\
        events w' = events w ++ evs /\
        (evs = [] \/
         evs = [OntologiesHandler
                  (os_path.join config.importDirectory (ontologiesImportDir E))
                  None]) /\
        row_count w' = row_count w) /\
  (forall e,
      dh_generateGraphFiles E
        (os_path.join config.importDirectory (databasesImportDir E)) None 4
        = Raise e ->
      exists w' e' evs,
        fullImport E sched w = (w', Raise e') /\
        events w' = events w ++ evs /\
        (evs = [] \/
         evs = [OntologiesHandler
                  (os_path.join config.importDirectory (ontologiesImportDir E))
                  None] \/
         evs = [OntologiesHandler
                  (os_path.join config.importDirectory (ontologiesImportDir E))
                  None;
                ElapsedPrinted] \/
         evs = [OntologiesHandler
                  (os_path.join config.importDirectory (ontologiesImportDir E))
                  None;
                ElapsedPrinted;
                DatabasesHandler
                  (os_path.join config.importDirectory (databasesImportDir E))
                  None 4])).
Proof.
  split; intros e He; rewrite (fullImport_unfold E sched).
  - exact (stages_ontologies_failure config.importDirectory sched w e He).
  - exact (stages_databases_failure config.importDirectory sched w e He).
Qed.

End Failures.

(** ** The further properties on the example installation *)

Lemma experimentsImport_zero_jobs_witness :
  provisionable (experimentsImportDirectory example.E0) example.w_empty /\
  exists w',
    experimentsImport example.E0 PNone 0 [] example.w_empty
    = (w', Raise ValueError) /\
    events w' = events example.w_empty /\
    is_dir (experimentsImportDirectory example.E0) w'.
Proof.
  assert (H : provisionable (experimentsImportDirectory example.E0)
                example.w_empty)
    by (split; [vm_compute; discriminate | vm_compute; reflexivity]).
  split; [exact H|].
  exact (proj2 (experimentsImport_zero_jobs example.E0 PNone []
                  example.w_empty) H).
Defined.


Lemma experimentsImport_serial_order_witness :
  exists w',
    experimentsImport example.E0 (PList ["P2"; "P1"]) 1 [5; 3]%nat
      example.w_ready = (w', Ok tt) /\
    events w' =
      events example.w_ready ++
      [ExperimentsHandler "P2" "d1"; ExperimentsHandler "P1" "d1"].
Proof.
  destruct (experimentsImport_serial_order example.E0 (PList ["P2"; "P1"])
              [5; 3]%nat example.w_ready) as (w' & Hw & Hev).
  - split; [vm_compute; discriminate | vm_compute; reflexivity].
  - intros project Hp. apply list_elem_of_In in Hp.
    destruct Hp as [<-|[<-|[]]].
    + split; [split; [vm_compute; discriminate | vm_compute; reflexivity]|].
      intros dataset Hds. apply list_elem_of_In in Hds.
      destruct Hds as [<-|[]].
      split; [split; [vm_compute; discriminate | vm_compute; reflexivity]|].
      reflexivity.
    + split; [split; [vm_compute; discriminate | vm_compute; reflexivity]|].
      intros dataset Hds. apply list_elem_of_In in Hds.
      destruct Hds as [<-|[]].
      split; [split; [vm_compute; discriminate | vm_compute; reflexivity]|].
      reflexivity.
  - exists w'. split; [exact Hw|]. exact Hev.
Defined.

Lemma setupStats_all_or_nothing_witness :
  ~ ledger_is_file example.w_empty /\
  ((exists e, setupStats example.E0 example.w_empty
              = (example.w_empty, Raise e)) \/
   (exists w',
       setupStats example.E0 example.w_empty = (w', Ok tt) /\
       ledger w' = Some ∅ /\
       is_dir config.statsDirectory w' /\
       same_files_but (fs.split_path ledger_path) (root example.w_empty)
         (root w') /\
       dirs_kept (root example.w_empty) (root w') /\
       events w' = events example.w_empty)).
Proof.
  assert (H : ~ ledger_is_file example.w_empty).
  { intros [c Hc]. vm_compute in Hc. discriminate Hc. }
  split; [exact H|].
  exact (setupStats_all_or_nothing example.E0 example.w_empty H).
Defined.

Lemma loadStats_reads_only_witness :
  ledger_path <> "" /\
  store_at ledger_path example.w_ready = Some ∅ /\
  loadStats ledger_path example.w_ready
  = (example.w_ready, Ok (Some (mkHDFStore ledger_path))).
Proof.
  assert (H1 : ledger_path <> "") by (vm_compute; discriminate).
  assert (H2 : store_at ledger_path example.w_ready = Some ∅)
    by (vm_compute; reflexivity).
  split; [exact H1|]. split; [exact H2|].
  exact (proj1 (proj2 (proj2 (proj2
           (loadStats_reads_only ledger_path example.w_ready)))) H1 ∅ H2).
Defined.




Lemma fullImport_event_order_witness :
  fullImport example.E0 [] example.w_empty
  = (fst (fullImport example.E0 [] example.w_empty), Ok tt) /\
  exists evs,
    Forall is_experiments_event evs /\
    events (fst (fullImport example.E0 [] example.w_empty)) =
      events example.w_empty ++
      [OntologiesHandler
         (os_path.join config.importDirectory
            (ontologiesImportDir example.E0)) None;
       ElapsedPrinted;
       DatabasesHandler
         (os_path.join config.importDirectory
            (databasesImportDir example.E0)) None 4;
       ElapsedPrinted] ++ evs ++ [ElapsedPrinted].
Proof.
  assert (H : fullImport example.E0 [] example.w_empty
              = (fst (fullImport example.E0 [] example.w_empty), Ok tt))
    by (vm_compute; reflexivity).
  split; [exact H|].
  exact (fullImport_event_order example.E0 [] example.w_empty _ H).
Defined.


Lemma getStatsName_collisions_witness :
  map dot_to_underscore (list_ascii_of_string "1.0") =
  map dot_to_underscore (list_ascii_of_string "1_0") /\
  getStatsName "1.0" = getStatsName "1_0".
Proof.
  assert (H : map dot_to_underscore (list_ascii_of_string "1.0") =
              map dot_to_underscore (list_ascii_of_string "1_0"))
    by reflexivity.
  split; [exact H|].
  exact (proj2 (proj2 (getStatsName_collisions "1.0" "1_0")) H).
Defined.

Lemma getStatsName_injective_without_underscore_witness :
  ("_"%char ∉ list_ascii_of_string "2.3.1") /\
  ("_"%char ∉ list_ascii_of_string (py.replace "2-3-1" "-" ".")) /\
  getStatsName "2.3.1" = getStatsName (py.replace "2-3-1" "-" ".") /\
  "2.3.1" = py.replace "2-3-1" "-" ".".
Proof.
  assert (H1 : "_"%char ∉ list_ascii_of_string "2.3.1").
  { intros Hin%list_elem_of_In. vm_compute in Hin. intuition discriminate. }
  assert (H2 : "_"%char ∉ list_ascii_of_string (py.replace "2-3-1" "-" ".")).
  { intros Hin%list_elem_of_In. vm_compute in Hin. intuition discriminate. }
  assert (H3 : getStatsName "2.3.1"
               = getStatsName (py.replace "2-3-1" "-" "."))
    by (vm_compute; reflexivity).
  split; [exact H1|]. split; [exact H2|]. split; [exact H3|].
  exact (getStatsName_injective_without_underscore "2.3.1"
           (py.replace "2-3-1" "-" ".") H1 H2 H3).
Defined.

Lemma experimentsImport_serial_failure_witness :
  exists w',
    experimentsImport example.E1 PNone 1 [] example.w_ready
    = (w', Raise (HandlerError "parse")) /\
    events w' =
      events example.w_ready ++
      [ExperimentsHandler "P1" "d1"; ExperimentsHandler "P2" "d1"] /\
    ledger w' = ledger example.w_ready.
Proof.
  destruct (experimentsImport_serial_failure example.E1 PNone []
              example.w_ready [("P1", "d1")] [] "P2" "d1"
              (HandlerError "parse")) as (w' & Hw & Hev & Hl).
  - split; [vm_compute; discriminate | vm_compute; reflexivity].
  - intros project Hp. apply list_elem_of_In in Hp.
    destruct Hp as [<-|[<-|[]]].
    + split; [split; [vm_compute; discriminate | vm_compute; reflexivity]|].
      intros dataset Hds. apply list_elem_of_In in Hds.
      destruct Hds as [<-|[]].
      split; [vm_compute; discriminate | vm_compute; reflexivity].
    + split; [split; [vm_compute; discriminate | vm_compute; reflexivity]|].
      intros dataset Hds. apply list_elem_of_In in Hds.
      destruct Hds as [<-|[]].
      split; [vm_compute; discriminate | vm_compute; reflexivity].
  - vm_compute. reflexivity.
  - intros pair Hin. apply list_elem_of_In in Hin.
    destruct Hin as [<-|[]]. reflexivity.
  - reflexivity.
  - exists w'. split; [exact Hw|]. split; [exact Hev|exact Hl].
Defined.

Lemma fullImport_stops_at_failed_stage_witness :
  (oh_generateGraphFiles example.E2
     (os_path.join config.importDirectory (ontologiesImportDir example.E2))
     None = Raise (HandlerError "obo") /\
   exists w' e' evs,
     fullImport example.E2 [] example.w_empty = (w', Raise e') /\
     events w' = events example.w_empty ++ evs /\
     (evs = [] \/
      evs = [OntologiesHandler
               (os_path.join config.importDirectory
                  (ontologiesImportDir example.E2)) None]) /\
     row_count w' = row_count example.w_empty) /\
  (dh_generateGraphFiles example.E1
     (os_path.join config.importDirectory (databasesImportDir example.E1))
     None 4 = Raise (HandlerError "download") /\
   exists w' e' evs,
     fullImport example.E1 [] example.w_empty = (w', Raise e') /\
     events w' = events example.w_empty ++ evs /\
     (evs = [] \/
      evs = [OntologiesHandler
               (os_path.join config.importDirectory
                  (ontologiesImportDir example.E1)) None] \/
      evs = [OntologiesHandler
               (os_path.join config.importDirectory
                  (ontologiesImportDir example.E1)) None;
             ElapsedPrinted] \/
      evs = [OntologiesHandler
               (os_path.join config.importDirectory
                  (ontologiesImportDir example.E1)) None;
             ElapsedPrinted;
             DatabasesHandler
               (os_path.join config.importDirectory
                  (databasesImportDir example.E1)) None 4])).
Proof.
  split.
  - split; [reflexivity|].
    exact (proj1 (fullImport_stops_at_failed_stage example.E2 []
                    example.w_empty) (HandlerError "obo") eq_refl).
  - split; [reflexivity|].
    exact (proj2 (fullImport_stops_at_failed_stage example.E1 []
                    example.w_empty) (HandlerError "download") eq_refl).
Defined.
